(** * swift3 ACL handlers: a shallow embedding of [swift3/acl_handlers.py]

    The module decides, for one S3 request, which Swift resource to probe,
    which permission to require and how ACL metadata is attached to the
    request.  Python strings are [string], [None]-able values are [option],
    the [ACL_MAP] dictionary is a [gmap] keyed by string triples, and the
    handler methods run in a small state-and-exception monad whose state is
    the request object, the backend and the list of backend calls issued. *)

From stdpp Require Import gmap strings list fin_maps.

(** ** Python strings *)

Module PyStr.

(** Truthiness of a [str]: only the empty string is falsy. *)
Definition truthy (s : string) : bool :=
  match s with
  | EmptyString => false
  | String _ _ => true
  end.

(** Truthiness of a value that is [None] or a [str]. *)
Definition truthy_opt (o : option string) : bool :=
  match o with
  | None => false
  | Some s => truthy s
  end.

Fixpoint take (n : nat) (s : string) : string :=
  match n, s with
  | S n', String c s' => String c (take n' s')
  | _, _ => EmptyString
  end.

Fixpoint drop (n : nat) (s : string) : string :=
  match n, s with
  | S n', String _ s' => drop n' s'
  | _, _ => s
  end.

(** [s[:-n]] for a non-negative [n].  Python reads the stop index [-0] as
    [0], so [s[:-0]] is the empty string, not [s]; for [n > 0] the stop
    index [len(s) - n] is clamped at [0]. *)
Definition slice_to_neg (s : string) (n : nat) : string :=
  match n with
  | O => EmptyString
  | S _ => take (String.length s - n) s
  end.

(** [s.endswith(suffix)] *)
Definition endswith (s suffix : string) : bool :=
  bool_decide (String.length suffix ≤ String.length s) &&
  bool_decide (drop (String.length s - String.length suffix) s = suffix).

End PyStr.

(** ** Python dictionaries written as literals *)

(** A dictionary display [{k1: v1, ..., kn: vn}] inserts its items from left
    to right, so a repeated key keeps the last value. *)
Definition dict_literal `{Countable K} {V} (items : list (K * V)) : gmap K V :=
  foldl (λ m kv, <[kv.1 := kv.2]> m) ∅ items.

(** First binding of a key in an association list. *)
Fixpoint assoc `{EqDecision K} {V} (k : K) (l : list (K * V)) : option V :=
  match l with
  | [] => None
  | (k', v) :: l' => if decide (k' = k) then Some v else assoc k l'
  end.

(** ** The permission table *)

(** A value of [ACL_MAP]: a dictionary with a ['Permission'] entry and, for
    one key only, a ['Resource'] entry; [acl_check.get('Resource')] is [None]
    when the entry is missing. *)
Record acl_check := AclCheck {
  Resource : option string;
  Permission : string
}.

Global Instance acl_check_eq_dec : EqDecision acl_check.
Proof. solve_decision. Defined.

(** (s3_method, swift_method, swift_resource) *)
Abbreviation acl_key := (string * string * string)%type.

Definition ACL_MAP_items : list (acl_key * acl_check) := [
  (* HEAD Bucket *)
  (("HEAD", "HEAD", "container"), AclCheck None "READ");
  (* GET Service *)
  (("GET", "HEAD", "container"), AclCheck None "OWNER");
  (* GET Bucket, List Parts, List Multipart Upload *)
  (("GET", "GET", "container"), AclCheck None "READ");
  (* PUT Object, PUT Object Copy *)
  (("PUT", "HEAD", "container"), AclCheck None "WRITE");
  (* DELETE Bucket *)
  (("DELETE", "DELETE", "container"), AclCheck None "OWNER");
  (* HEAD Object *)
  (("HEAD", "HEAD", "object"), AclCheck None "READ");
  (* GET Object *)
  (("GET", "GET", "object"), AclCheck None "READ");
  (* PUT Object Copy, Upload Part Copy *)
  (("PUT", "HEAD", "object"), AclCheck None "READ");
  (* Initiate Multipart Upload *)
  (("POST", "PUT", "container"), AclCheck None "WRITE");
  (* Abort Multipart Upload *)
  (("DELETE", "HEAD", "container"), AclCheck None "WRITE");
  (* Delete Object *)
  (("DELETE", "DELETE", "object"), AclCheck (Some "container") "WRITE");
  (* Complete Multipart Upload, DELETE Multiple Objects *)
  (("POST", "HEAD", "container"), AclCheck None "WRITE")
].

Definition ACL_MAP : gmap acl_key acl_check := dict_literal ACL_MAP_items.

(** ** The documented checkpoint table

    This second table is written from the specification's "authorization
    checkpoint table", row by row and in its order, to be compared with
    [ACL_MAP].  A row gives the incoming verb, the backend verb, the kind of
    the resource the request addresses, the kind the check is redirected to
    (only the object-delete row has one: it reads "container (override)",
    the request addressing an object and the check going to its container)
    and the permission. *)
Record checkpoint := Checkpoint {
  cp_incoming : string;
  cp_backend : string;
  cp_kind : string;
  cp_override : option string;
  cp_permission : string
}.

Definition checkpoint_table : list checkpoint := [
  Checkpoint "HEAD" "HEAD" "container" None "READ";
  Checkpoint "GET" "HEAD" "container" None "OWNER";
  Checkpoint "GET" "GET" "container" None "READ";
  Checkpoint "PUT" "HEAD" "container" None "WRITE";
  Checkpoint "DELETE" "DELETE" "container" None "OWNER";
  Checkpoint "HEAD" "HEAD" "object" None "READ";
  Checkpoint "GET" "GET" "object" None "READ";
  Checkpoint "PUT" "HEAD" "object" None "READ";
  Checkpoint "POST" "PUT" "container" None "WRITE";
  Checkpoint "DELETE" "HEAD" "container" None "WRITE";
  Checkpoint "DELETE" "DELETE" "object" (Some "container") "WRITE";
  Checkpoint "POST" "HEAD" "container" None "WRITE"
].

Definition cp_key (c : checkpoint) : acl_key :=
  (cp_incoming c, cp_backend c, cp_kind c).

Definition cp_rule (c : checkpoint) : acl_check :=
  AclCheck (cp_override c) (cp_permission c).

(** What the documentation says a triple resolves to. *)
Definition documented_rule (k : acl_key) : option acl_check :=
  assoc k ((λ c, (cp_key c, cp_rule c)) <$> checkpoint_table).

(** ** ACL values and exceptions *)

(** [swift3.subresource.Owner] *)
Record Owner := mkOwner {
  owner_id : string;
  owner_name : string
}.

Record Grant := mkGrant {
  grantee : string;
  permission : string
}.

(** [swift3.subresource.ACL]: an owner and an ordered list of grants. *)
Record ACL := mkACL {
  owner : Owner;
  grants : list Grant
}.

(** Header bags are association lists of names and values. *)
Abbreviation Headers := (list (string * string)).

(** The exceptions the module raises itself, those it lets through from
    its collaborators, and the interpreter errors its attribute accesses and
    subscripts can run into. *)
Inductive exn :=
  | MissingSecurityHeader (msg missing_header_name : string)
  | MalformedACLError
  | UnexpectedContent
  | AccessDenied
  | OwnerMismatch
  | Exception (msg : string)
  | TypeError
  | AttributeError
  | UnboundLocalError
  | Collaborator (what : string).

Inductive result (A : Type) :=
  | Ok (a : A)
  | Raise (e : exn).
Arguments Ok {A} a.
Arguments Raise {A} e.

(** Outcome of [fromstring(body, ACL.root_tag)] followed by
    [ACL.from_elem(elem)], by the [except] clause that catches it. *)
Inductive parse_outcome :=
  | Parsed (acl : ACL)
  | XMLSyntaxError
  | DocumentInvalid
  | OtherError (e : exn).

(** ** The request, the backend and the handler objects *)

(** The attributes of the request object the handlers read and assign.
    [xml] is what [req.xml(ACL.max_xml_length)] yields: the body, [None], or
    an exception.  [bucket_acl] and [object_acl] are the attributes the
    handlers assign to attach ACL metadata to the outgoing backend request. *)
Record Request := mkRequest {
  container_name : option string;
  object_name : option string;
  REQUEST_METHOD : string;
  user_id : string;
  req_headers : Headers;
  is_object_request : bool;
  is_bucket_request : bool;
  xml : result (option string);
  bucket_acl : option ACL;
  object_acl : option ACL
}.

Definition set_bucket_acl (acl : option ACL) (r : Request) : Request :=
  mkRequest (container_name r) (object_name r) (REQUEST_METHOD r) (user_id r)
            (req_headers r) (is_object_request r) (is_bucket_request r)
            (xml r) acl (object_acl r).

Definition set_object_acl (acl : option ACL) (r : Request) : Request :=
  mkRequest (container_name r) (object_name r) (REQUEST_METHOD r) (user_id r)
            (req_headers r) (is_object_request r) (is_bucket_request r)
            (xml r) (bucket_acl r) acl.

(** The arguments of one [req.get_acl_response(app, method, container, obj,
    headers)] call, as the call site passes them: [None] for an argument the
    call leaves out. *)
Record call := mkCall {
  c_method : string;
  c_container : option string;
  c_obj : option string;
  c_headers : option Headers
}.

(** The backend response, exposing the ACLs of the probed resource. *)
Record Resp := mkResp {
  resp_bucket_acl : ACL;
  resp_object_acl : ACL
}.

(** What a handler does that is visible outside it, in the order done. *)
Inductive event :=
  | BackendCall (c : call)
  | SetBucketAcl (acl : option ACL)
  | SetObjectAcl (acl : option ACL).

(** The collaborators the module imports and does not define: the backend
    behind [Request.get_acl_response], the header and body parsers of
    [swift3.subresource.ACL] and [swift3.etree], the permission evaluation
    [ACL.check_permission], and the constant [swift3.utils.MULTIUPLOAD_SUFFIX].
    The backend answers a call from its own state and the request as it
    stands at the time of the call. *)
Class Collaborators := {
  World : Type;
  get_acl_response : World → Request → call → World * result Resp;
  from_headers :
    Headers → Owner → option Owner → option bool → result (option ACL);
  from_body : string → parse_outcome;
  check_permission : ACL → string → string → result unit;
  MULTIUPLOAD_SUFFIX : string
}.

(** Modelled from the spec: [ACL.check_owner] lives in [swift3.subresource],
    which is not among the sources.  The specification says an ACL write
    "must reject (owner-mismatch error) if the newly supplied ACL's owner id
    differs from the existing resource's owner id". *)
Definition check_owner (acl : ACL) (new_owner_id : string) : result unit :=
  if decide (new_owner_id = owner_id (owner acl)) then Ok tt
  else Raise OwnerMismatch.

Inductive klass :=
  | BaseAclHandler
  | BucketAclHandler
  | ObjectAclHandler
  | S3AclHandler
  | MultiObjectDeleteAclHandler
  | MultiUploadAclHandler
  | PartAclHandler
  | UploadsAclHandler
  | UploadAclHandler.

Global Instance klass_eq_dec : EqDecision klass.
Proof. solve_decision. Defined.

(** The direct base class; [None] stands for [object]. *)
Definition base_of (k : klass) : option klass :=
  match k with
  | BaseAclHandler => None
  | BucketAclHandler | ObjectAclHandler | S3AclHandler
  | MultiObjectDeleteAclHandler | MultiUploadAclHandler => Some BaseAclHandler
  | PartAclHandler | UploadsAclHandler | UploadAclHandler =>
      Some MultiUploadAclHandler
  end.

(** Method resolution order: the class, then its bases. *)
Definition mro (k : klass) : list klass :=
  match base_of k with
  | None => [k]
  | Some b =>
      match base_of b with
      | None => [k; b]
      | Some b' => [k; b; b']
      end
  end.

Definition in_multiupload_family (k : klass) : bool :=
  bool_decide (MultiUploadAclHandler ∈ mro k).

(** The instance attributes of a handler.  [check_copy_src] is only ever
    assigned (and read) by [PartAclHandler]; it is [false] elsewhere. *)
Record handler := mkHandler {
  class_of : klass;
  container : option string;
  obj : option string;
  method : string;
  h_user_id : string;
  headers : Headers;
  check_copy_src : bool
}.

Definition with_container (c : option string) (h : handler) : handler :=
  mkHandler (class_of h) c (obj h) (method h) (h_user_id h) (headers h)
            (check_copy_src h).

Definition with_check_copy_src (b : bool) (h : handler) : handler :=
  mkHandler (class_of h) (container h) (obj h) (method h) (h_user_id h)
            (headers h) b.

(** [x if arg is None else arg] *)
Definition if_None {A} (arg : option A) (x : A) : A :=
  match arg with
  | None => x
  | Some a => a
  end.

(** [arg if arg is not None else dflt], for an attribute that may itself be
    [None]. *)
Definition or_attr {A} (arg dflt : option A) : option A :=
  match arg with
  | None => dflt
  | Some a => Some a
  end.

(** ** The handler monad: request state, backend state and exceptions *)

Section handlers.
Context `{Collaborators}.

Record State := mkState {
  req : Request;
  world : World;
  trace : list event
}.

(** A computation may change the state and then return or raise; what it
    changed before raising stays changed. *)
Definition M (A : Type) : Type := State → State * result A.

Definition ret {A} (a : A) : M A := λ st, (st, Ok a).

Definition raise {A} (e : exn) : M A := λ st, (st, Raise e).

Definition lift {A} (r : result A) : M A := λ st, (st, r).

Definition bind {A B} (m : M A) (k : A → M B) : M B := λ st,
  match m st with
  | (st', Ok a) => k a st'
  | (st', Raise e) => (st', Raise e)
  end.

Notation "'let*' x ':=' m 'in' k" := (bind m (λ x, k))
  (at level 10, x pattern, m at level 100, k at level 200).

Definition get_req : M Request := λ st, (st, Ok (req st)).

(** [self.req.get_acl_response(app, ...)] *)
Definition backend_call (c : call) : M Resp := λ st,
  let '(w, r) := get_acl_response (world st) (req st) c in
  (mkState (req st) w (trace st ++ [BackendCall c]), r).

(** [self.req.bucket_acl = acl] *)
Definition assign_bucket_acl (acl : option ACL) : M unit := λ st,
  (mkState (set_bucket_acl acl (req st)) (world st)
           (trace st ++ [SetBucketAcl acl]), Ok tt).

(** [self.req.object_acl = acl] *)
Definition assign_object_acl (acl : option ACL) : M unit := λ st,
  (mkState (set_object_acl acl (req st)) (world st)
           (trace st ++ [SetObjectAcl acl]), Ok tt).

(** ** [get_acl] *)

Definition get_acl (headers : Headers) (body : option string)
    (bucket_owner : Owner) (object_owner : option Owner) : result ACL :=
  match from_headers headers bucket_owner object_owner (Some false) with
  | Raise e => Raise e
  | Ok None =>
      (* Get acl from request body if possible. *)
      match body with
      | Some b =>
          if negb (PyStr.truthy b) then
            Raise (MissingSecurityHeader
                     "Your request was missing a required header"
                     "x-amz-acl")
          else
            match from_body b with
            | Parsed acl => Ok acl
            | XMLSyntaxError | DocumentInvalid => Raise MalformedACLError
            | OtherError e => Raise e
            end
      | None =>
          Raise (MissingSecurityHeader
                   "Your request was missing a required header"
                   "x-amz-acl")
      end
  | Ok (Some acl) =>
      (* Specifying grant with both header and xml is not allowed. *)
      if PyStr.truthy_opt body then Raise UnexpectedContent else Ok acl
  end.

(** ** Construction *)

(** [BaseAclHandler.__init__], run for an object of class [k]. *)
Definition BaseAclHandler_init (k : klass) (r : Request)
    (a_container a_obj : option string) (a_headers : option Headers)
    : handler :=
  {| class_of := k;
     container := or_attr a_container (container_name r);
     obj := or_attr a_obj (object_name r);
     method := REQUEST_METHOD r;
     h_user_id := user_id r;
     headers := if_None a_headers (req_headers r);
     check_copy_src := false |}.

(** [MultiUploadAclHandler.__init__]; subscripting [None] is a
    [TypeError]. *)
Definition MultiUploadAclHandler_init (k : klass) (r : Request)
    (a_container a_obj : option string) (a_headers : option Headers)
    : result handler :=
  let self := BaseAclHandler_init k r a_container a_obj a_headers in
  match container self with
  | None => Raise TypeError
  | Some c =>
      Ok (with_container
            (Some (PyStr.slice_to_neg c (String.length MULTIUPLOAD_SUFFIX)))
            self)
  end.

(** [PartAclHandler.__init__]: it calls the initializer of the class after
    [MultiUploadAclHandler], that is [BaseAclHandler.__init__]; [endswith]
    on [None] is an [AttributeError]. *)
Definition PartAclHandler_init (k : klass) (r : Request)
    (a_container a_obj : option string) (a_headers : option Headers)
    : result handler :=
  let self := BaseAclHandler_init k r a_container a_obj a_headers in
  let self := with_check_copy_src false self in
  match container self with
  | None => Raise AttributeError
  | Some c =>
      if PyStr.endswith c MULTIUPLOAD_SUFFIX then
        Ok (with_container
              (Some (PyStr.slice_to_neg c
                       (String.length MULTIUPLOAD_SUFFIX)))
              self)
      else
        Ok (with_check_copy_src true self)
  end.

(** [klass(req, container, obj, headers)]: the first [__init__] along the
    method resolution order. *)
Definition new (k : klass) (r : Request)
    (a_container a_obj : option string) (a_headers : option Headers)
    : result handler :=
  match k with
  | PartAclHandler => PartAclHandler_init k r a_container a_obj a_headers
  | MultiUploadAclHandler | UploadsAclHandler | UploadAclHandler =>
      MultiUploadAclHandler_init k r a_container a_obj a_headers
  | _ => Ok (BaseAclHandler_init k r a_container a_obj a_headers)
  end.

(** ** The generic check *)

(** [a or b] on strings that may be [None]. *)
Definition py_or (a : option string) (b : string) : string :=
  match a with
  | Some s => if PyStr.truthy s then s else b
  | None => b
  end.

(** The backend verb the check works with: [sw_method or
    self.req.environ['REQUEST_METHOD']]. *)
Definition effective_sw_method (sw_method : option string) (r : Request)
    : string :=
  py_or sw_method (REQUEST_METHOD r).

Definition resource_of (o : option string) : string :=
  if PyStr.truthy_opt o then "object" else "container".

(** The resource and permission after the table lookup. *)
Definition resolve (self : handler) (sw_method resource : string)
    (a_permission : option string) : string * option string :=
  if negb (PyStr.truthy_opt a_permission) then
    match ACL_MAP !! (method self, sw_method, resource) with
    | Some acl_check =>
        (py_or (Resource acl_check) resource, Some (Permission acl_check))
    | None => (resource, a_permission)
    end
  else (resource, a_permission).

(** The probe and the ACL it yields, by resource. *)
Definition probe (resource : string) (c : option string) (o : option string)
    (hs : Headers) : M (Resp * ACL) :=
  if decide (resource = "object") then
    let* resp := backend_call (mkCall "HEAD" c o (Some hs)) in
    ret (resp, resp_object_acl resp)
  else if decide (resource = "container") then
    let* resp := backend_call (mkCall "HEAD" c (Some "") None) in
    ret (resp, resp_bucket_acl resp)
  else raise UnboundLocalError.

(** The one backend call [probe] makes for a resource of either kind. *)
Definition probe_call (resource : string) (c o : option string)
    (hs : Headers) : call :=
  if decide (resource = "object") then mkCall "HEAD" c o (Some hs)
  else mkCall "HEAD" c (Some "") None.

Definition _handle_acl (self : handler) (a_sw_method : option string)
    (a_container a_obj a_permission : option string)
    (a_headers : option Headers) : M (option Resp) :=
  let* r := get_req in
  let c := or_attr a_container (container self) in
  let o := or_attr a_obj (obj self) in
  let sw_method := effective_sw_method a_sw_method r in
  let resource := resource_of o in
  let hs := if_None a_headers (headers self) in
  if negb (PyStr.truthy_opt c) then ret None
  else
    let '(resource, perm) := resolve self sw_method resource a_permission in
    match perm with
    | Some p =>
        if negb (PyStr.truthy p) then
          raise (Exception "No permission to be checked exists")
        else
          let* (resp, acl) := probe resource c o hs in
          let* _ := lift (check_permission acl (h_user_id self) p) in
          if decide (sw_method = "HEAD") then ret (Some resp) else ret None
    | None => raise (Exception "No permission to be checked exists")
    end.

(** ** The methods named after verbs *)

Definition BucketAclHandler_PUT (self : handler) : M (option Resp) :=
  let* r := get_req in
  let* req_acl :=
    lift (from_headers (req_headers r)
            (mkOwner (h_user_id self) (h_user_id self)) None None) in
  (* To avoid overwriting the existing bucket's ACL, we send PUT request
     first before setting the ACL to make sure that the target container
     does not exist. *)
  let* _ := backend_call (mkCall "PUT" None None None) in
  (* update metadata *)
  let* _ := assign_bucket_acl req_acl in
  let* resp := backend_call (mkCall "POST" None None None) in
  ret (Some resp).

Definition ObjectAclHandler_PUT (self : handler) : M (option Resp) :=
  let* b_resp := _handle_acl self (Some "HEAD") None (Some "") None None in
  let* r := get_req in
  match b_resp with
  | None => raise AttributeError
  | Some b =>
      let* req_acl :=
        lift (from_headers (req_headers r) (owner (resp_bucket_acl b))
                (Some (mkOwner (h_user_id self) (h_user_id self))) None) in
      let* _ := assign_object_acl req_acl in
      ret None
  end.

(** The WRITE_ACP check both ACL-writing methods start from:
    [self._handle_acl(app, 'HEAD', permission='WRITE_ACP')]. *)
Definition write_acp_check (self : handler) : M (option Resp) :=
  _handle_acl self (Some "HEAD") None None (Some "WRITE_ACP") None.

Definition S3AclHandler_GET (self : handler) : M (option Resp) :=
  let* _ := _handle_acl self (Some "HEAD") None None (Some "READ_ACP") None in
  ret None.

(** The arguments of [get_acl] are evaluated left to right: the body is
    read before the owner of the probed ACL is looked at, and the attribute
    access on a [None] response is an [AttributeError]. *)
Definition S3AclHandler_PUT (self : handler) : M (option Resp) :=
  let* r := get_req in
  if is_object_request r then
    let* b_resp := backend_call (mkCall "HEAD" None (Some "") None) in
    let* o_resp :=
      _handle_acl self (Some "HEAD") None None (Some "WRITE_ACP") None in
    let* r := get_req in
    let* body := lift (xml r) in
    match o_resp with
    | None => raise AttributeError
    | Some o =>
        let* req_acl :=
          lift (get_acl (req_headers r) body
                  (owner (resp_bucket_acl b_resp))
                  (Some (owner (resp_object_acl o)))) in
        (* Don't change the owner of the resource by PUT acl request. *)
        let* _ :=
          lift (check_owner (resp_object_acl o)
                  (owner_id (owner req_acl))) in
        let* _ := assign_object_acl (Some req_acl) in
        ret None
    end
  else
    let* _ := _handle_acl self (Some (method self)) None None None None in
    ret None.

Definition S3AclHandler_POST (self : handler) : M (option Resp) :=
  let* r := get_req in
  if is_bucket_request r then
    let* resp :=
      _handle_acl self (Some "HEAD") None None (Some "WRITE_ACP") None in
    let* r := get_req in
    let* body := lift (xml r) in
    match resp with
    | None => raise AttributeError
    | Some b =>
        let* req_acl :=
          lift (get_acl (req_headers r) body
                  (owner (resp_bucket_acl b)) None) in
        (* Don't change the owner of the resource by PUT acl request. *)
        let* _ :=
          lift (check_owner (resp_bucket_acl b)
                  (owner_id (owner req_acl))) in
        let* _ := assign_bucket_acl (Some req_acl) in
        ret None
    end
  else
    let* _ := _handle_acl self (Some (method self)) None None None None in
    ret None.

Definition MultiObjectDeleteAclHandler_DELETE (self : handler)
    : M (option Resp) :=
  (* Only bucket write acl is required *)
  ret None.

Definition MultiUploadAclHandler_HEAD (self : handler) : M (option Resp) :=
  (* For _check_upload_info *)
  let* _ :=
    _handle_acl self (Some "HEAD") (container self) (Some "") None None in
  ret None.

Definition PartAclHandler_HEAD (self : handler) : M (option Resp) :=
  if check_copy_src self then
    (* For check_copy_source *)
    _handle_acl self (Some "HEAD") (container self) (obj self) None None
  else
    (* For _check_upload_info *)
    let* _ :=
      _handle_acl self (Some "HEAD") (container self) (Some "") None None in
    ret None.

Definition UploadsAclHandler_GET (self : handler) : M (option Resp) :=
  (* List Multipart Upload *)
  let* _ :=
    _handle_acl self (Some "GET") (container self) (Some "") None None in
  ret None.

Definition UploadsAclHandler_PUT (self : handler) : M (option Resp) :=
  if negb (PyStr.truthy_opt (obj self)) then
    (* Initiate Multipart Uploads (put +segment container) *)
    let* _ :=
      _handle_acl self (Some "PUT") (container self) None None None in
    ret None
  else
    (* No check needed at Initiate Multipart Uploads (put upload id
       object) *)
    ret None.

Definition UploadAclHandler_HEAD (self : handler) : M (option Resp) :=
  let m := if decide (method self = "GET") then "GET" else "HEAD" in
  let* _ := _handle_acl self (Some m) (container self) (Some "") None None in
  ret None.

(** ** Dispatch *)

(** The verb-named methods a class body defines itself. *)
Definition own_method (k : klass) (name : string)
    : option (handler → M (option Resp)) :=
  match k with
  | BaseAclHandler => None
  | BucketAclHandler =>
      if decide (name = "PUT") then Some BucketAclHandler_PUT else None
  | ObjectAclHandler =>
      if decide (name = "PUT") then Some ObjectAclHandler_PUT else None
  | S3AclHandler =>
      if decide (name = "GET") then Some S3AclHandler_GET
      else if decide (name = "PUT") then Some S3AclHandler_PUT
      else if decide (name = "POST") then Some S3AclHandler_POST
      else None
  | MultiObjectDeleteAclHandler =>
      if decide (name = "DELETE")
      then Some MultiObjectDeleteAclHandler_DELETE else None
  | MultiUploadAclHandler =>
      if decide (name = "HEAD") then Some MultiUploadAclHandler_HEAD
      else None
  | PartAclHandler =>
      if decide (name = "HEAD") then Some PartAclHandler_HEAD else None
  | UploadsAclHandler =>
      if decide (name = "GET") then Some UploadsAclHandler_GET
      else if decide (name = "PUT") then Some UploadsAclHandler_PUT
      else None
  | UploadAclHandler =>
      if decide (name = "HEAD") then Some UploadAclHandler_HEAD else None
  end.

(** [getattr(self, name)] for the name of a verb: the first definition
    along the method resolution order; [None] when [hasattr(self, name)]
    is false.  Verbs are upper-case words ([verb_name]); every other
    attribute of a handler object ([req], [container], [handle_acl],
    [_handle_acl], [__init__], those of [object], ...) has a lower-case
    letter or an underscore in its name, so for a verb this lookup is the
    whole of [hasattr].  For a name that is not a verb the lookup does not
    stand for [hasattr] (calling such an attribute is a [TypeError]);
    what is proved about [handle_acl] is proved of verbs only. *)
Definition getattr (k : klass) (name : string)
    : option (handler → M (option Resp)) :=
  foldr (λ c found, match own_method c name with
                    | Some f => Some f
                    | None => found
                    end) None (mro k).

(** The verbs for which [hasattr] holds on an object of each class: the
    methods of the class body and those it inherits. *)
Definition defined_verbs (k : klass) : list string :=
  match k with
  | BaseAclHandler => []
  | BucketAclHandler => ["PUT"]
  | ObjectAclHandler => ["PUT"]
  | S3AclHandler => ["GET"; "PUT"; "POST"]
  | MultiObjectDeleteAclHandler => ["DELETE"]
  | MultiUploadAclHandler => ["HEAD"]
  | PartAclHandler => ["HEAD"]
  | UploadsAclHandler => ["GET"; "PUT"; "HEAD"]
  | UploadAclHandler => ["HEAD"]
  end.

Definition BaseAclHandler_handle_acl (self : handler)
    (a_method : option string) : M (option Resp) :=
  let m := py_or a_method (method self) in
  match getattr (class_of self) m with
  | Some f => f self
  | None => _handle_acl self (Some m) None None None None
  end.

Definition MultiUploadAclHandler_handle_acl (self : handler)
    (a_method : option string) : M (option Resp) :=
  let m := py_or a_method (method self) in
  (* MultiUpload stuffs don't need acl check basically. *)
  match getattr (class_of self) m with
  | Some f => f self
  | None => ret None
  end.

(** [self.handle_acl(app, method)]: [MultiUploadAclHandler] overrides the
    method for itself and its subclasses. *)
Definition handle_acl (self : handler) (a_method : option string)
    : M (option Resp) :=
  if in_multiupload_family (class_of self)
  then MultiUploadAclHandler_handle_acl self a_method
  else BaseAclHandler_handle_acl self a_method.

End handlers.

Notation "'let*' x ':=' m 'in' k" := (bind m (λ x, k))
  (at level 10, x pattern, m at level 100, k at level 200).

(** A verb is a word of upper-case letters. *)
Definition upper_case (c : Ascii.ascii) : bool :=
  let n := Ascii.nat_of_ascii c in
  bool_decide (65 ≤ n ≤ 90).

Fixpoint verb_name (s : string) : bool :=
  match s with
  | EmptyString => true
  | String c s' => upper_case c && verb_name s'
  end.

(** ** A backend for running the handlers

    A small world for executing the handlers on concrete requests: every
    resource is owned by ["alice"] and carries no grants, the only header
    understood is the canned ACL [x-amz-acl: private], a body parses when it
    is the word ["acl:"] followed by the owner id, and only owners hold
    permissions. *)
Module Fixture.

Definition alice : Owner := mkOwner "alice" "alice".

Definition acl_of (o : Owner) : ACL := mkACL o [].

Definition answer : Resp := mkResp (acl_of alice) (acl_of alice).

Definition canned (hs : Headers) (bucket_owner : Owner)
    (object_owner : option Owner) (as_private : option bool)
    : result (option ACL) :=
  match assoc "x-amz-acl" hs with
  | Some _ => Ok (Some (acl_of (if_None object_owner bucket_owner)))
  | None =>
      if if_None as_private true
      then Ok (Some (acl_of (if_None object_owner bucket_owner)))
      else Ok None
  end.

Definition parse (body : string) : parse_outcome :=
  if decide (PyStr.take 4 body = "acl:")
  then Parsed (acl_of (mkOwner (PyStr.drop 4 body) (PyStr.drop 4 body)))
  else XMLSyntaxError.

Definition owner_only (acl : ACL) (uid perm : string) : result unit :=
  if decide (uid = owner_id (owner acl)) then Ok tt else Raise AccessDenied.

#[export] Instance collaborators : Collaborators := {|
  World := unit;
  get_acl_response := λ w _ _, (w, Ok answer);
  from_headers := canned;
  from_body := parse;
  check_permission := owner_only;
  MULTIUPLOAD_SUFFIX := "+segments"
|}.

(** A request by [uid] with verb [verb] on [bucket]/[key]. *)
Definition request (verb uid : string) (bucket key : option string)
    (hs : Headers) (body : option string) : Request :=
  {| container_name := bucket;
     object_name := key;
     REQUEST_METHOD := verb;
     user_id := uid;
     req_headers := hs;
     is_object_request := PyStr.truthy_opt key;
     is_bucket_request :=
       PyStr.truthy_opt bucket && negb (PyStr.truthy_opt key);
     xml := Ok body;
     bucket_acl := None;
     object_acl := None |}.

Definition start (r : Request) : State := mkState r tt [].

End Fixture.

(** ** Handler selection *)

(** [handler.__name__] *)
Definition class_name (k : klass) : string :=
  match k with
  | BaseAclHandler => "BaseAclHandler"
  | BucketAclHandler => "BucketAclHandler"
  | ObjectAclHandler => "ObjectAclHandler"
  | S3AclHandler => "S3AclHandler"
  | MultiObjectDeleteAclHandler => "MultiObjectDeleteAclHandler"
  | MultiUploadAclHandler => "MultiUploadAclHandler"
  | PartAclHandler => "PartAclHandler"
  | UploadsAclHandler => "UploadsAclHandler"
  | UploadAclHandler => "UploadAclHandler"
  end.

(** The classes of the module, in the order their definitions are
    executed. *)
Definition all_classes : list klass :=
  [BaseAclHandler; BucketAclHandler; ObjectAclHandler; S3AclHandler;
   MultiObjectDeleteAclHandler; MultiUploadAclHandler; PartAclHandler;
   UploadsAclHandler; UploadAclHandler].

(** [base_klass.__subclasses__()]: the direct subclasses, in definition
    order. *)
Definition subclasses (base_klass : klass) : list klass :=
  filter (λ k, base_of k = Some base_klass) all_classes.

Definition handler_suffix_len (h : klass) : nat :=
  if negb (bool_decide (class_name h = "S3AclHandler"))
  then String.length "AclHandler"
  else String.length "Hanlder".

(** [handler.__name__[:-handler_suffix_len]] *)
Definition controller_of (h : klass) : string :=
  PyStr.slice_to_neg (class_name h) (handler_suffix_len h).

(** The inner loop: the first handler whose stripped name is the
    controller's. *)
Fixpoint first_handler (controller_name : string) (hs : list klass)
    : option klass :=
  match hs with
  | [] => None
  | h :: hs' =>
      if bool_decide (controller_of h = controller_name) then Some h
      else first_handler controller_name hs'
  end.

Definition get_acl_handler (controller_name : string) : klass :=
  let found :=
    foldr (λ base_klass later,
             match first_handler controller_name (subclasses base_klass) with
             | Some h => Some h
             | None => later
             end)
          None [BaseAclHandler; MultiUploadAclHandler] in
  match found with
  | Some h => h
  | None => BaseAclHandler
  end.

(** ** What a check that reaches the probe amounts to *)

Section outcomes.
Context `{Collaborators}.

(** The ACL of a response the check evaluates, by resource. *)
Definition checked_acl (resource : string) (resp : Resp) : ACL :=
  if decide (resource = "object") then resp_object_acl resp
  else resp_bucket_acl resp.

(** One probe of [resource], then the evaluation of permission [p] for the
    handler's user on the ACL the probe returned; the response is handed
    back when the backend verb [sw_method] is HEAD.  Used to state what the
    handlers' checks come to. *)
Definition probe_and_check (self : handler) (resource p sw_method : string)
    (c o : option string) (hs : Headers) : M (option Resp) := λ st,
  let cl := probe_call resource c o hs in
  let answer := get_acl_response (world st) (req st) cl in
  (mkState (req st) answer.1 (trace st ++ [BackendCall cl]),
   match answer.2 with
   | Raise e => Raise e
   | Ok resp =>
       match check_permission (checked_acl resource resp)
               (h_user_id self) p with
       | Raise e => Raise e
       | Ok _ => Ok (if decide (sw_method = "HEAD") then Some resp else None)
       end
   end).

(** A run whose return value is thrown away by the caller. *)
Definition discarding {A} (run : State * result A)
    : State * result (option Resp) :=
  (run.1, match run.2 with
          | Ok _ => Ok None
          | Raise e => Raise e
          end).

End outcomes.

(** * Properties of the permission table *)

Section dict_facts.
Context `{Countable K} {V : Type}.
Implicit Types (k : K) (l : list (K * V)) (m : gmap K V).

Lemma foldl_insert_lookup l m k :
  foldl (λ m kv, <[kv.1 := kv.2]> m) m l !! k =
  match assoc k (reverse l) with
  | Some v => Some v
  | None => m !! k
  end.
Proof.
  revert m. induction l as [|[k' v] l IH] using rev_ind; intros m.
  - done.
  - rewrite foldl_app, reverse_app. simpl.
    destruct (decide (k' = k)) as [->|Hne].
    + by rewrite lookup_insert_eq.
    + by rewrite lookup_insert_ne, IH.
Qed.

Lemma dict_literal_lookup l k :
  dict_literal l !! k = assoc k (reverse l).
Proof.
  unfold dict_literal. rewrite foldl_insert_lookup.
  destruct (assoc k (reverse l)); [done | apply lookup_empty].
Qed.

Lemma assoc_None_notin l k : assoc k l = None ↔ k ∉ l.*1.
Proof.
  induction l as [|[k' v] l IH]; simpl.
  - split; [intros _; apply not_elem_of_nil | done].
  - destruct (decide (k' = k)) as [->|Hne].
    + split; [done | intros []; left].
    + rewrite IH, not_elem_of_cons. split; [by intros; split | by intros [_ ?]].
Qed.

Lemma assoc_Some_elem l k v : assoc k l = Some v → (k, v) ∈ l.
Proof.
  induction l as [|[k' v'] l IH]; simpl; [done |].
  destruct (decide (k' = k)) as [->|Hne].
  - intros [= ->]. left.
  - intros. right. auto.
Qed.

Lemma assoc_NoDup_elem l k v : NoDup l.*1 → (k, v) ∈ l → assoc k l = Some v.
Proof.
  induction l as [|[k' v'] l IH]; simpl.
  - intros _ Hin. by apply elem_of_nil in Hin.
  - intros [Hk Hnd]%NoDup_cons [Heq|Hin]%elem_of_cons.
    + injection Heq as -> ->. by rewrite decide_True.
    + destruct (decide (k' = k)) as [->|Hne]; [|by auto].
      exfalso. apply Hk. apply (list_elem_of_fmap_2 fst) in Hin. done.
Qed.

(** With pairwise distinct keys the order of the items is immaterial. *)
Lemma assoc_reverse l k : NoDup l.*1 → assoc k (reverse l) = assoc k l.
Proof.
  intros Hnd. destruct (assoc k l) as [v|] eqn:Hl.
  - apply assoc_NoDup_elem.
    + by rewrite fmap_reverse, reverse_Permutation.
    + apply elem_of_reverse. by apply assoc_Some_elem.
  - apply assoc_None_notin. rewrite fmap_reverse, elem_of_reverse.
    by apply assoc_None_notin.
Qed.

Lemma dict_literal_size l : NoDup l.*1 → size (dict_literal l) = length l.
Proof.
  intros Hnd. unfold dict_literal.
  assert (Hgen : ∀ m, (∀ k, k ∈ l.*1 → m !! k = None) →
    size (foldl (λ m kv, <[kv.1 := kv.2]> m) m l) = size m + length l).
  { clear -Hnd. induction l as [|[k v] l IH]; intros m Hm; simpl.
    - lia.
    - apply NoDup_cons in Hnd as [Hk Hnd]. rewrite IH; [|done|].
      + rewrite map_size_insert_None; [lia|]. apply Hm. left.
      + intros k' Hk'. rewrite lookup_insert_ne.
        * apply Hm. by right.
        * intros ->. done. }
  rewrite Hgen; [by rewrite map_size_empty | intros; apply lookup_empty].
Qed.
End dict_facts.

Lemma ACL_MAP_keys_NoDup : NoDup ACL_MAP_items.*1.
Proof. apply (bool_decide_unpack _). vm_compute. exact I. Qed.

Lemma ACL_MAP_lookup k : ACL_MAP !! k = assoc k ACL_MAP_items.
Proof.
  unfold ACL_MAP. rewrite dict_literal_lookup.
  apply assoc_reverse, ACL_MAP_keys_NoDup.
Qed.

(** C1: every one of the twelve triples of the documented checkpoint table
    resolves in [ACL_MAP] to exactly the documented permission; the only row
    carrying a resource override is the object-delete row, which redirects
    the check to the container; and a triple is absent from [ACL_MAP]
    exactly when it is not a row of the checkpoint table. *)
Theorem ACL_MAP_agrees_with_checkpoint_table :
  length checkpoint_table = 12 ∧
  NoDup (cp_key <$> checkpoint_table) ∧
  Forall (λ c, ACL_MAP !! cp_key c = Some (cp_rule c)) checkpoint_table ∧
  Forall (λ c, cp_override c =
               if decide (cp_key c = ("DELETE", "DELETE", "object"))
               then Some "container" else None) checkpoint_table ∧
  (∀ k, ACL_MAP !! k = documented_rule k) ∧
  (∀ k, ACL_MAP !! k = None ↔ k ∉ cp_key <$> checkpoint_table).
Proof.
  assert (Hitems :
    ACL_MAP_items = (λ c, (cp_key c, cp_rule c)) <$> checkpoint_table)
    by reflexivity.
  assert (Hkeys : ACL_MAP_items.*1 = cp_key <$> checkpoint_table)
    by reflexivity.
  assert (Hall : ∀ k, ACL_MAP !! k = documented_rule k).
  { intros k. rewrite ACL_MAP_lookup. unfold documented_rule.
    by rewrite Hitems. }
  split; [reflexivity |].
  split; [rewrite <- Hkeys; apply ACL_MAP_keys_NoDup |].
  split.
  { apply Forall_forall. intros c Hc. rewrite ACL_MAP_lookup.
    apply assoc_NoDup_elem; [apply ACL_MAP_keys_NoDup |].
    rewrite Hitems. by apply (list_elem_of_fmap_2 (λ c, (cp_key c, cp_rule c))). }
  split.
  { repeat constructor. }
  split; [exact Hall |].
  intros k. rewrite ACL_MAP_lookup, assoc_None_notin. by rewrite Hkeys.
Qed.

(** C5 as stated (eleven mappings) does not hold of the table. *)
Lemma ACL_MAP_size_not_eleven : size ACL_MAP ≠ 11.
Proof.
  unfold ACL_MAP. rewrite dict_literal_size by apply ACL_MAP_keys_NoDup.
  simpl. lia.
Qed.

(** C5, amended: the static permission table [ACL_MAP] contains exactly
    twelve operation mappings, one per row of the checkpoint table. *)
Theorem ACL_MAP_size_twelve :
  size ACL_MAP = 12 ∧ size ACL_MAP = length checkpoint_table.
Proof.
  unfold ACL_MAP. rewrite dict_literal_size by apply ACL_MAP_keys_NoDup.
  split; reflexivity.
Qed.

(** * Properties of [get_acl] *)

(** C3: when the headers yield an ACL and the body is non-empty, [get_acl]
    raises [UnexpectedContent], whatever the body parser would make of the
    body; it returns no ACL at all, so the two forms are never merged. *)
Theorem get_acl_header_and_body_conflict `{Collaborators}
    (hs : Headers) (body : string) (bucket_owner : Owner)
    (object_owner : option Owner) (acl : ACL) :
  from_headers hs bucket_owner object_owner (Some false) = Ok (Some acl) →
  body ≠ "" →
  get_acl hs (Some body) bucket_owner object_owner = Raise UnexpectedContent.
Proof.
  intros Hhdr Hbody. unfold get_acl. rewrite Hhdr.
  destruct body as [|ch body']; [done | reflexivity].
Qed.

Lemma get_acl_header_and_body_conflict_witness :
  Fixture.parse "acl:bob" = Parsed (Fixture.acl_of (mkOwner "bob" "bob")) ∧
  Fixture.parse "<not xml" = XMLSyntaxError ∧
  @get_acl Fixture.collaborators
    [("x-amz-acl", "private")] (Some "acl:bob") Fixture.alice None
    = Raise UnexpectedContent ∧
  @get_acl Fixture.collaborators
    [("x-amz-acl", "private")] (Some "<not xml") Fixture.alice None
    = Raise UnexpectedContent.
Proof.
  split; [reflexivity |]. split; [reflexivity |].
  split.
  - apply (@get_acl_header_and_body_conflict Fixture.collaborators
             [("x-amz-acl", "private")] "acl:bob" Fixture.alice None
             (Fixture.acl_of Fixture.alice)); [reflexivity | discriminate].
  - apply (@get_acl_header_and_body_conflict Fixture.collaborators
             [("x-amz-acl", "private")] "<not xml" Fixture.alice None
             (Fixture.acl_of Fixture.alice)); [reflexivity | discriminate].
Defined.

(** * Properties of the generic check *)

Section generic_check.
Context `{Collaborators}.
Implicit Types (self : handler) (st : State).

(** Every rule of the table redirects, if at all, to the container. *)
Lemma ACL_MAP_Resource k rule :
  ACL_MAP !! k = Some rule →
  Resource rule = None ∨ Resource rule = Some "container".
Proof.
  rewrite ACL_MAP_lookup. intros Hin%assoc_Some_elem.
  assert (Hall : Forall (λ kv : acl_key * acl_check,
            Resource kv.2 = None ∨ Resource kv.2 = Some "container")
            ACL_MAP_items) by (repeat constructor).
  rewrite Forall_forall in Hall. apply (Hall _ Hin).
Qed.

Lemma ACL_MAP_Permission_truthy k rule :
  ACL_MAP !! k = Some rule → PyStr.truthy (Permission rule) = true.
Proof.
  rewrite ACL_MAP_lookup. intros Hin%assoc_Some_elem.
  assert (Hall : Forall (λ kv : acl_key * acl_check,
            PyStr.truthy (Permission kv.2) = true) ACL_MAP_items)
    by (repeat constructor).
  rewrite Forall_forall in Hall. apply (Hall _ Hin).
Qed.

(** The resource the check settles on is one of the two kinds. *)
Lemma resolve_resource self sw_method o a_permission :
  let res := (resolve self sw_method (resource_of o) a_permission).1 in
  res = "object" ∨ res = "container".
Proof.
  assert (Hkind : resource_of o = "object" ∨ resource_of o = "container").
  { unfold resource_of. destruct (PyStr.truthy_opt o); auto. }
  unfold resolve. destruct (negb (PyStr.truthy_opt a_permission)); [|done].
  destruct (ACL_MAP !! _) as [rule|] eqn:Hrule; [|done]. simpl.
  destruct (ACL_MAP_Resource _ _ Hrule) as [-> | ->]; simpl; auto.
Qed.

Lemma probe_run resource c o hs st :
  resource = "object" ∨ resource = "container" →
  let cl := probe_call resource c o hs in
  let wr := get_acl_response (world st) (req st) cl in
  probe resource c o hs st =
    (mkState (req st) wr.1 (trace st ++ [BackendCall cl]),
     match wr.2 with
     | Ok resp =>
         Ok (resp, if decide (resource = "object")
                   then resp_object_acl resp else resp_bucket_acl resp)
     | Raise e => Raise e
     end).
Proof.
  intros Hres. unfold probe, probe_call, bind, backend_call, ret. simpl.
  destruct (decide (resource = "object")) as [->|Hno].
  - destruct (get_acl_response _ _ _) as [w [resp|e]]; reflexivity.
  - destruct Hres as [->| ->]; [done |]. simpl.
    destruct (get_acl_response _ _ _) as [w [resp|e]]; reflexivity.
Qed.

(** What a run of the generic check does to the state: the request is
    left alone and at most one backend call is appended. *)
Lemma _handle_acl_state self a_sw a_c a_o a_p a_hs st :
  let st' := (_handle_acl self a_sw a_c a_o a_p a_hs st).1 in
  req st' = req st ∧
  (st' = st ∨
   ∃ cl, trace st' = trace st ++ [BackendCall cl] ∧
         c_method cl = "HEAD" ∧
         c_container cl = or_attr a_c (container self)).
Proof.
  unfold _handle_acl, bind, get_req. simpl.
  destruct (negb (PyStr.truthy_opt _)); [simpl; auto |].
  pose proof (resolve_resource self (effective_sw_method a_sw (req st))
                (or_attr a_o (obj self)) a_p) as Hres.
  destruct (resolve _ _ _ _) as [resource [p|]]; [|simpl; auto].
  destruct (negb (PyStr.truthy p)); [simpl; auto |].
  simpl in Hres. rewrite (probe_run _ _ _ _ _ Hres). simpl.
  assert (Hcl : c_method (probe_call resource (or_attr a_c (container self))
                   (or_attr a_o (obj self)) (if_None a_hs (headers self)))
                = "HEAD" ∧
                c_container (probe_call resource
                   (or_attr a_c (container self))
                   (or_attr a_o (obj self)) (if_None a_hs (headers self)))
                = or_attr a_c (container self)).
  { unfold probe_call. destruct (decide _); done. }
  destruct (get_acl_response _ _ _) as [w [resp|e]]; simpl.
  - destruct (check_permission _ _ _) as [[]|e]; simpl;
      [destruct (decide (effective_sw_method _ _ = _)); simpl |];
      (split; [done |]); right; eauto.
  - split; [done |]. right; eauto.
Qed.

Lemma _handle_acl_req self a_sw a_c a_o a_p a_hs st :
  req (_handle_acl self a_sw a_c a_o a_p a_hs st).1 = req st.
Proof. apply _handle_acl_state. Qed.

End generic_check.

Section generic_check_claims.
Context `{Collaborators}.
Implicit Types (self : handler) (st : State).

(** C4, amended: a generic check that reaches the probe step issues
    exactly one backend call, and its verb is always HEAD, whatever the
    supplied backend verb [sw_method] is.  A check that stops before the
    probe leaves the state as it was. *)
Theorem generic_check_probes_with_HEAD self a_sw a_c a_o a_p a_hs st :
  let c := or_attr a_c (container self) in
  let o := or_attr a_o (obj self) in
  let sw_method := effective_sw_method a_sw (req st) in
  let perm := (resolve self sw_method (resource_of o) a_p).2 in
  let st' := (_handle_acl self a_sw a_c a_o a_p a_hs st).1 in
  if PyStr.truthy_opt c && PyStr.truthy_opt perm
  then ∃ cl, trace st' = trace st ++ [BackendCall cl] ∧
             c_method cl = "HEAD" ∧ c_container cl = c ∧
             req st' = req st
  else st' = st.
Proof.
  unfold _handle_acl, bind, get_req. simpl.
  destruct (PyStr.truthy_opt (or_attr a_c _)); simpl; [|done].
  pose proof (resolve_resource self (effective_sw_method a_sw (req st))
                (or_attr a_o (obj self)) a_p) as Hres.
  destruct (resolve _ _ _ _) as [resource [p|]]; simpl; [|done].
  destruct (PyStr.truthy p); simpl; [|done].
  simpl in Hres. rewrite (probe_run _ _ _ _ _ Hres). simpl.
  exists (probe_call resource (or_attr a_c (container self))
            (or_attr a_o (obj self)) (if_None a_hs (headers self))).
  assert (Hcl : ∀ c o hs, c_method (probe_call resource c o hs) = "HEAD" ∧
                          c_container (probe_call resource c o hs) = c).
  { intros. unfold probe_call. destruct (decide _); done. }
  destruct (Hcl (or_attr a_c (container self)) (or_attr a_o (obj self))
              (if_None a_hs (headers self))) as [Hm Hc].
  destruct (get_acl_response _ _ _) as [w [resp|e]]; simpl; [|done].
  destruct (check_permission _ _ _) as [[]|e]; simpl; [|done].
  destruct (decide (effective_sw_method _ _ = _)); done.
Qed.

(** C7: with a non-empty container name, no explicit permission and no
    table entry for (incoming verb, backend verb, resource kind), the
    generic check raises the fatal exception, before any backend call and
    without touching the request. *)
Theorem generic_check_without_rule_is_fatal self a_sw a_c a_o a_p a_hs st :
  PyStr.truthy_opt (or_attr a_c (container self)) = true →
  PyStr.truthy_opt a_p = false →
  ACL_MAP !! (method self, effective_sw_method a_sw (req st),
              resource_of (or_attr a_o (obj self))) = None →
  _handle_acl self a_sw a_c a_o a_p a_hs st =
    (st, Raise (Exception "No permission to be checked exists")).
Proof.
  intros Hc Hp Hmap. unfold _handle_acl, bind, get_req. simpl.
  rewrite Hc. simpl. unfold resolve. rewrite Hp, Hmap. simpl.
  destruct a_p as [p|]; [|done]. simpl in Hp. by rewrite Hp.
Qed.

End generic_check_claims.

(** C4 as stated fails: a GET listing checked with backend verb GET probes
    the backend with HEAD. *)
Lemma probe_verb_differs_from_sw_method :
  let r := Fixture.request "GET" "alice" (Some "bucket") None [] None in
  let self := BaseAclHandler_init BaseAclHandler r None None None in
  let run := @_handle_acl Fixture.collaborators self (Some "GET")
               None None None None (Fixture.start r) in
  effective_sw_method (Some "GET") r = "GET" ∧
  trace run.1 = [BackendCall (mkCall "HEAD" (Some "bucket") (Some "") None)] ∧
  run.2 = Ok None ∧
  ¬ (∀ cl, BackendCall cl ∈ trace run.1 →
           c_method cl = effective_sw_method (Some "GET") r).
Proof.
  split; [reflexivity |]. split; [reflexivity |]. split; [reflexivity |].
  intros Hall.
  specialize (Hall (mkCall "HEAD" (Some "bucket") (Some "") None)).
  discriminate Hall. vm_compute. left.
Qed.

Lemma generic_check_without_rule_is_fatal_witness :
  let r := Fixture.request "GET" "bob" (Some "bucket") (Some "key") [] None in
  let self := BaseAclHandler_init BaseAclHandler r None None None in
  ACL_MAP !! ("GET", "HEAD", "object") = None ∧
  @_handle_acl Fixture.collaborators self (Some "HEAD") None None None None
    (Fixture.start r) =
  (Fixture.start r, Raise (Exception "No permission to be checked exists")).
Proof.
  split; [reflexivity |].
  apply (@generic_check_without_rule_is_fatal Fixture.collaborators);
    reflexivity.
Defined.

(** * Properties of the specialised handlers *)

Section bucket_creation.
Context `{Collaborators}.

Lemma backend_call_run (c : call) (st : State) :
  backend_call c st =
    (mkState (req st) (get_acl_response (world st) (req st) c).1
             (trace st ++ [BackendCall c]),
     (get_acl_response (world st) (req st) c).2).
Proof.
  unfold backend_call. by destruct (get_acl_response _ _ _).
Qed.

(** C6: bucket creation first sends the backend create call (PUT); only
    when that call succeeds is the requested ACL assigned to the request's
    [bucket_acl], and only after that is the metadata-persisting POST
    sent, on the request carrying that ACL.  When the create call fails
    the run ends there: no ACL is assigned and no POST is sent. *)
Theorem bucket_PUT_creates_before_attaching (self : handler) (st : State) :
  let creator := mkOwner (h_user_id self) (h_user_id self) in
  let create := mkCall "PUT" None None None in
  let persist := mkCall "POST" None None None in
  let run := BucketAclHandler_PUT self st in
  match from_headers (req_headers (req st)) creator None None with
  | Raise e => run = (st, Raise e)
  | Ok req_acl =>
      match get_acl_response (world st) (req st) create with
      | (w, Raise e) =>
          run = (mkState (req st) w (trace st ++ [BackendCall create]),
                 Raise e)
      | (w, Ok _) =>
          let r' := set_bucket_acl req_acl (req st) in
          let answer := get_acl_response w r' persist in
          run.1 = mkState r' answer.1
                    (trace st ++ [BackendCall create; SetBucketAcl req_acl;
                                  BackendCall persist]) ∧
          bucket_acl (req run.1) = req_acl ∧
          run.2 = match answer.2 with
                  | Ok resp => Ok (Some resp)
                  | Raise e => Raise e
                  end
      end
  end.
Proof.
  unfold BucketAclHandler_PUT, bind, get_req, lift. simpl.
  destruct (from_headers _ _ _ _) as [req_acl|e]; [|done].
  rewrite backend_call_run.
  destruct (get_acl_response (world st) _ _) as [w [created|e]]; simpl;
    [|done].
  unfold assign_bucket_acl. rewrite backend_call_run. simpl.
  destruct (get_acl_response w _ _) as [w' [resp|e]]; simpl;
    rewrite <- !(assoc_L (++)); done.
Qed.

End bucket_creation.

Section dispatch.
Context `{Collaborators}.

Lemma getattr_defined_verbs (k : klass) (name : string) :
  is_Some (getattr k name) ↔ name ∈ defined_verbs k.
Proof.
  destruct k; unfold getattr; simpl;
    repeat (destruct (decide (name = _)) as [->|?]; simpl);
    (split;
      [ intros [f Hf]; first [discriminate Hf | repeat constructor]
      | intros Hin; first
          [ by eexists
          | exfalso;
            repeat (apply elem_of_cons in Hin as [?|Hin]; [done |]);
            by apply elem_of_nil in Hin ] ]).
Qed.

(** C8, amended: for the handlers outside the multipart-upload family,
    [handle_acl] runs the method named after the verb when the handler
    has one and the generic table-driven check with that verb as the
    backend verb otherwise; for [MultiUploadAclHandler] and its
    subclasses it runs the method when the handler has one and otherwise
    does nothing at all.  The verb is the one passed, or the request's
    own when none is passed. *)
Theorem handle_acl_dispatch (self : handler) (a_method : option string)
    (st : State) :
  let m := py_or a_method (method self) in
  verb_name m = true →
  (is_Some (getattr (class_of self) m) ↔ m ∈ defined_verbs (class_of self)) ∧
  handle_acl self a_method st =
    match getattr (class_of self) m with
    | Some verb_method => verb_method self st
    | None =>
        if in_multiupload_family (class_of self) then (st, Ok None)
        else _handle_acl self (Some m) None None None None st
    end.
Proof.
  intros m _. split; [apply getattr_defined_verbs |].
  unfold handle_acl, MultiUploadAclHandler_handle_acl,
    BaseAclHandler_handle_acl. fold m.
  destruct (in_multiupload_family _); destruct (getattr _ _); reflexivity.
Qed.

End dispatch.

(** C8 as stated fails: an [UploadsAclHandler] asked to handle DELETE has
    no method of that name and runs no check, where the generic check would
    have probed the container. *)
Lemma multiupload_handle_acl_skips_generic_check :
  let r := Fixture.request "DELETE" "alice" (Some "bucket+segments") None
             [] None in
  ∃ self,
    @new Fixture.collaborators UploadsAclHandler r None None None = Ok self ∧
    verb_name "DELETE" = true ∧
    ¬ is_Some (@getattr Fixture.collaborators (class_of self) "DELETE") ∧
    handle_acl self (Some "DELETE") (Fixture.start r)
      = (Fixture.start r, Ok None) ∧
    trace (_handle_acl self (Some "DELETE") None None None None
             (Fixture.start r)).1
      = [BackendCall (mkCall "HEAD" (Some "bucket") (Some "") None)] ∧
    handle_acl self (Some "DELETE") (Fixture.start r)
      ≠ _handle_acl self (Some "DELETE") None None None None (Fixture.start r).
Proof.
  eexists. split; [reflexivity |]. split; [reflexivity |].
  split; [intros [f Hf]; discriminate Hf |].
  split; [reflexivity |]. split; [reflexivity |].
  intros Heq. apply (f_equal (λ run, length (trace run.1))) in Heq.
  discriminate Heq.
Qed.

Lemma handle_acl_dispatch_witness :
  let r := Fixture.request "GET" "alice" (Some "bucket") (Some "key") [] None in
  let self := BaseAclHandler_init S3AclHandler r None None None in
  let r' := Fixture.request "DELETE" "alice" (Some "bucket") None [] None in
  let self' := BaseAclHandler_init BucketAclHandler r' None None None in
  (@handle_acl Fixture.collaborators self None (Fixture.start r)
     = S3AclHandler_GET self (Fixture.start r)) ∧
  (@handle_acl Fixture.collaborators self' None (Fixture.start r')
     = _handle_acl self' (Some "DELETE") None None None None
         (Fixture.start r')).
Proof.
  split.
  - exact (proj2 (@handle_acl_dispatch Fixture.collaborators
                    (BaseAclHandler_init S3AclHandler
                       (Fixture.request "GET" "alice" (Some "bucket")
                          (Some "key") [] None) None None None)
                    None _ eq_refl)).
  - exact (proj2 (@handle_acl_dispatch Fixture.collaborators
                    (BaseAclHandler_init BucketAclHandler
                       (Fixture.request "DELETE" "alice" (Some "bucket")
                          None [] None) None None None)
                    None _ eq_refl)).
Defined.

Section acl_endpoint.
Context `{Collaborators}.
Implicit Types (self : handler) (st : State).

Lemma backend_call_req (c : call) st :
  req (backend_call c st).1 = req st.
Proof. by rewrite backend_call_run. Qed.

Lemma check_owner_Ok (acl : ACL) (uid : string) :
  check_owner acl uid = Ok tt ↔ uid = owner_id (owner acl).
Proof. unfold check_owner. destruct (decide _); split; done. Qed.

Lemma check_owner_mismatch (acl : ACL) (uid : string) :
  uid ≠ owner_id (owner acl) → check_owner acl uid = Raise OwnerMismatch.
Proof. intros Hne. unfold check_owner. by rewrite decide_False. Qed.

(** PUT on an object, once the bucket probe and the WRITE_ACP check have
    gone through. *)
Lemma S3AclHandler_PUT_checked self st st1 b_resp st2 o_resp :
  is_object_request (req st) = true →
  backend_call (mkCall "HEAD" None (Some "") None) st = (st1, Ok b_resp) →
  write_acp_check self st1 = (st2, Ok (Some o_resp)) →
  req st2 = req st ∧
  S3AclHandler_PUT self st =
    match xml (req st) with
    | Raise e => (st2, Raise e)
    | Ok body =>
        match get_acl (req_headers (req st)) body
                (owner (resp_bucket_acl b_resp))
                (Some (owner (resp_object_acl o_resp))) with
        | Raise e => (st2, Raise e)
        | Ok req_acl =>
            match check_owner (resp_object_acl o_resp)
                    (owner_id (owner req_acl)) with
            | Raise e => (st2, Raise e)
            | Ok _ => ((assign_object_acl (Some req_acl) st2).1, Ok None)
            end
        end
    end.
Proof.
  intros Hobj Hb Ho.
  assert (Hreq : req st2 = req st).
  { pose proof (_handle_acl_req self (Some "HEAD") None None
                  (Some "WRITE_ACP") None st1) as H2.
    unfold write_acp_check in Ho. rewrite Ho in H2. simpl in H2.
    pose proof (backend_call_req (mkCall "HEAD" None (Some "") None) st)
      as H1.
    rewrite Hb in H1. simpl in H1. congruence. }
  split; [done |].
  unfold S3AclHandler_PUT, bind, get_req, lift. simpl. rewrite Hobj, Hb.
  unfold write_acp_check in Ho. rewrite Ho, Hreq.
  destruct (xml (req st)) as [body|e]; [|done].
  destruct (get_acl _ _ _ _) as [req_acl|e]; [|done].
  destruct (check_owner _ _) as [[]|e]; done.
Qed.

(** POST on a bucket, once the WRITE_ACP check has gone through. *)
Lemma S3AclHandler_POST_checked self st st1 resp :
  is_bucket_request (req st) = true →
  write_acp_check self st = (st1, Ok (Some resp)) →
  req st1 = req st ∧
  S3AclHandler_POST self st =
    match xml (req st) with
    | Raise e => (st1, Raise e)
    | Ok body =>
        match get_acl (req_headers (req st)) body
                (owner (resp_bucket_acl resp)) None with
        | Raise e => (st1, Raise e)
        | Ok req_acl =>
            match check_owner (resp_bucket_acl resp)
                    (owner_id (owner req_acl)) with
            | Raise e => (st1, Raise e)
            | Ok _ => ((assign_bucket_acl (Some req_acl) st1).1, Ok None)
            end
        end
    end.
Proof.
  intros Hbkt Hr.
  assert (Hreq : req st1 = req st).
  { pose proof (_handle_acl_req self (Some "HEAD") None None
                  (Some "WRITE_ACP") None st) as H1.
    unfold write_acp_check in Hr. by rewrite Hr in H1. }
  split; [done |].
  unfold S3AclHandler_POST, bind, get_req, lift. simpl. rewrite Hbkt.
  unfold write_acp_check in Hr. rewrite Hr, Hreq.
  destruct (xml (req st)) as [body|e]; [|done].
  destruct (get_acl _ _ _ _) as [req_acl|e]; [|done].
  destruct (check_owner _ _) as [[]|e]; done.
Qed.

End acl_endpoint.

Section owner_immutability.
Context `{Collaborators}.
Implicit Types (self : handler) (st : State).

(** C2: an ACL write through the ACL endpoint, PUT on an object or POST on
    a bucket, by a caller whose WRITE_ACP check went through, raises the
    owner-mismatch error when the owner id of the supplied ACL differs from
    the owner id of the ACL the resource has, and leaves the request as it
    was; and whenever such a write succeeds, the ACL it attaches has the
    owner id of the existing one, so the owner never changes. *)
Theorem acl_write_keeps_owner self st :
  (∀ st1 b_resp st2 o_resp body req_acl,
     is_object_request (req st) = true →
     backend_call (mkCall "HEAD" None (Some "") None) st = (st1, Ok b_resp) →
     write_acp_check self st1 = (st2, Ok (Some o_resp)) →
     xml (req st) = Ok body →
     get_acl (req_headers (req st)) body (owner (resp_bucket_acl b_resp))
       (Some (owner (resp_object_acl o_resp))) = Ok req_acl →
     owner_id (owner req_acl) ≠ owner_id (owner (resp_object_acl o_resp)) →
     S3AclHandler_PUT self st = (st2, Raise OwnerMismatch) ∧
     req st2 = req st) ∧
  (∀ st1 resp body req_acl,
     is_bucket_request (req st) = true →
     write_acp_check self st = (st1, Ok (Some resp)) →
     xml (req st) = Ok body →
     get_acl (req_headers (req st)) body (owner (resp_bucket_acl resp)) None
       = Ok req_acl →
     owner_id (owner req_acl) ≠ owner_id (owner (resp_bucket_acl resp)) →
     S3AclHandler_POST self st = (st1, Raise OwnerMismatch) ∧
     req st1 = req st) ∧
  (∀ st' v,
     is_object_request (req st) = true →
     S3AclHandler_PUT self st = (st', Ok v) →
     ∃ st1 st2 o_resp req_acl,
       write_acp_check self st1 = (st2, Ok (Some o_resp)) ∧
       req st' = set_object_acl (Some req_acl) (req st) ∧
       owner_id (owner req_acl) = owner_id (owner (resp_object_acl o_resp))) ∧
  (∀ st' v,
     is_bucket_request (req st) = true →
     S3AclHandler_POST self st = (st', Ok v) →
     ∃ st1 resp req_acl,
       write_acp_check self st = (st1, Ok (Some resp)) ∧
       req st' = set_bucket_acl (Some req_acl) (req st) ∧
       owner_id (owner req_acl) = owner_id (owner (resp_bucket_acl resp))).
Proof.
  split; [|split; [|split]].
  - intros st1 b_resp st2 o_resp body req_acl Hobj Hb Ho Hxml Hacl Hne.
    destruct (S3AclHandler_PUT_checked self st st1 b_resp st2 o_resp
                Hobj Hb Ho) as [Hreq ->].
    rewrite Hxml, Hacl, (check_owner_mismatch _ _ Hne). done.
  - intros st1 resp body req_acl Hbkt Hr Hxml Hacl Hne.
    destruct (S3AclHandler_POST_checked self st st1 resp Hbkt Hr)
      as [Hreq ->].
    rewrite Hxml, Hacl, (check_owner_mismatch _ _ Hne). done.
  - intros st' v Hobj Hrun.
    destruct (backend_call (mkCall "HEAD" None (Some "") None) st)
      as [st1 [b_resp|e]] eqn:Hb.
    2:{ unfold S3AclHandler_PUT, bind, get_req in Hrun. simpl in Hrun.
        rewrite Hobj, Hb in Hrun. discriminate Hrun. }
    destruct (write_acp_check self st1) as [st2 [[o_resp|]|e]] eqn:Ho.
    + destruct (S3AclHandler_PUT_checked self st st1 b_resp st2 o_resp
                  Hobj Hb Ho) as [Hreq Heq].
      rewrite Heq in Hrun.
      destruct (xml (req st)) as [body|e]; [|discriminate Hrun].
      destruct (get_acl _ _ _ _) as [req_acl|e]; [|discriminate Hrun].
      destruct (check_owner _ _) as [[]|e] eqn:Hown; [|discriminate Hrun].
      apply check_owner_Ok in Hown.
      injection Hrun as <- <-. exists st1, st2, o_resp, req_acl.
      split; [done |]. split; [|done]. simpl. by rewrite Hreq.
    + unfold S3AclHandler_PUT, bind, get_req, lift in Hrun. simpl in Hrun.
      unfold write_acp_check in Ho. rewrite Hobj, Hb, Ho in Hrun.
      destruct (xml (req st2)); discriminate Hrun.
    + unfold S3AclHandler_PUT, bind, get_req, lift in Hrun. simpl in Hrun.
      unfold write_acp_check in Ho. rewrite Hobj, Hb, Ho in Hrun.
      discriminate Hrun.
  - intros st' v Hbkt Hrun.
    destruct (write_acp_check self st) as [st1 [[resp|]|e]] eqn:Hr.
    + destruct (S3AclHandler_POST_checked self st st1 resp Hbkt Hr)
        as [Hreq Heq].
      rewrite Heq in Hrun.
      destruct (xml (req st)) as [body|e]; [|discriminate Hrun].
      destruct (get_acl _ _ _ _) as [req_acl|e]; [|discriminate Hrun].
      destruct (check_owner _ _) as [[]|e] eqn:Hown; [|discriminate Hrun].
      apply check_owner_Ok in Hown.
      injection Hrun as <- <-. exists st1, resp, req_acl.
      split; [done |]. split; [|done]. simpl. by rewrite Hreq.
    + unfold S3AclHandler_POST, bind, get_req, lift in Hrun. simpl in Hrun.
      unfold write_acp_check in Hr. rewrite Hbkt, Hr in Hrun.
      destruct (xml (req st1)); discriminate Hrun.
    + unfold S3AclHandler_POST, bind, get_req, lift in Hrun. simpl in Hrun.
      unfold write_acp_check in Hr. rewrite Hbkt, Hr in Hrun.
      discriminate Hrun.
Qed.

End owner_immutability.

Lemma acl_write_keeps_owner_witness :
  let r := Fixture.request "PUT" "alice" (Some "bucket") (Some "key") []
             (Some "acl:bob") in
  let self := BaseAclHandler_init S3AclHandler r None None None in
  let r' := Fixture.request "POST" "alice" (Some "bucket") None []
              (Some "acl:bob") in
  let self' := BaseAclHandler_init S3AclHandler r' None None None in
  ((@S3AclHandler_PUT Fixture.collaborators self (Fixture.start r)).2
     = Raise OwnerMismatch ∧
   req (@S3AclHandler_PUT Fixture.collaborators self (Fixture.start r)).1
     = r) ∧
  ((@S3AclHandler_POST Fixture.collaborators self' (Fixture.start r')).2
     = Raise OwnerMismatch ∧
   req (@S3AclHandler_POST Fixture.collaborators self' (Fixture.start r')).1
     = r').
Proof.
  split.
  - pose proof (proj1 (@acl_write_keeps_owner Fixture.collaborators
        (BaseAclHandler_init S3AclHandler
           (Fixture.request "PUT" "alice" (Some "bucket") (Some "key") []
              (Some "acl:bob")) None None None)
        (Fixture.start
           (Fixture.request "PUT" "alice" (Some "bucket") (Some "key") []
              (Some "acl:bob"))))
        _ _ _ _ _ _ eq_refl eq_refl eq_refl eq_refl eq_refl) as Hput.
    destruct Hput as [Hrun Hreq]; [discriminate |].
    rewrite Hrun. split; [reflexivity | exact Hreq].
  - pose proof (proj1 (proj2 (@acl_write_keeps_owner Fixture.collaborators
        (BaseAclHandler_init S3AclHandler
           (Fixture.request "POST" "alice" (Some "bucket") None []
              (Some "acl:bob")) None None None)
        (Fixture.start
           (Fixture.request "POST" "alice" (Some "bucket") None []
              (Some "acl:bob")))))
        _ _ _ _ eq_refl eq_refl eq_refl eq_refl) as Hpost.
    destruct Hpost as [Hrun Hreq]; [discriminate |].
    rewrite Hrun. split; [reflexivity | exact Hreq].
Defined.

(** * Properties of the multipart-upload constructors *)

Section string_facts.
Implicit Types (s t : string) (n : nat).

Lemma app_nil_str t : "" +:+ t = t.
Proof. reflexivity. Qed.

Lemma app_cons_str c s t : String c s +:+ t = String c (s +:+ t).
Proof. reflexivity. Qed.

Lemma length_app s t :
  String.length (s +:+ t) = String.length s + String.length t.
Proof.
  induction s as [|c s IH]; [done |].
  rewrite app_cons_str. simpl. by rewrite IH.
Qed.

Lemma app_assoc_str s t u : (s +:+ t) +:+ u = s +:+ (t +:+ u).
Proof.
  induction s as [|c s IH]; [done |].
  rewrite !app_cons_str. by rewrite IH.
Qed.

Lemma take_app_exact s t : PyStr.take (String.length s) (s +:+ t) = s.
Proof.
  induction s as [|c s IH]; [by destruct t |].
  rewrite app_cons_str. simpl. by rewrite IH.
Qed.

Lemma drop_app_exact s t : PyStr.drop (String.length s) (s +:+ t) = t.
Proof.
  induction s as [|c s IH]; [by destruct t |].
  rewrite app_cons_str. done.
Qed.

Lemma take_drop n s : PyStr.take n s +:+ PyStr.drop n s = s.
Proof.
  revert s. induction n as [|n IH]; intros [|c s]; simpl; try done.
  rewrite app_cons_str. by rewrite IH.
Qed.

Lemma length_drop n s :
  String.length (PyStr.drop n s) = String.length s - n.
Proof.
  revert s. induction n as [|n IH]; intros [|c s]; simpl; try done.
Qed.

Lemma slice_to_neg_app s t :
  t ≠ "" → PyStr.slice_to_neg (s +:+ t) (String.length t) = s.
Proof.
  intros Ht. unfold PyStr.slice_to_neg.
  destruct (String.length t) eqn:Hlen; [by destruct t |].
  rewrite <- Hlen, length_app.
  replace (String.length s + String.length t - String.length t)
    with (String.length s) by lia.
  apply take_app_exact.
Qed.

(** Removing a non-empty suffix length splits the name in what is kept and
    what is dropped from its end. *)
Lemma slice_to_neg_split s n :
  n ≠ 0 →
  ∃ dropped, s = PyStr.slice_to_neg s n +:+ dropped ∧
             String.length dropped = n `min` String.length s.
Proof.
  intros Hn. exists (PyStr.drop (String.length s - n) s).
  unfold PyStr.slice_to_neg. destruct n as [|n]; [done |].
  split; [by rewrite take_drop |]. rewrite length_drop. lia.
Qed.

Lemma endswith_iff s t : PyStr.endswith s t = true ↔ ∃ p, s = p +:+ t.
Proof.
  unfold PyStr.endswith. rewrite andb_true_iff, !bool_decide_eq_true. split.
  - intros [Hlen Hdrop].
    exists (PyStr.take (String.length s - String.length t) s).
    pose proof (take_drop (String.length s - String.length t) s) as Hsplit.
    by rewrite Hdrop in Hsplit.
  - intros [p ->]. rewrite length_app. split; [lia |].
    replace (String.length p + String.length t - String.length t)
      with (String.length p) by lia.
    apply drop_app_exact.
Qed.

Lemma length_nonempty t : t ≠ "" → String.length t ≠ 0.
Proof. by destruct t. Qed.

End string_facts.

Section construction.
Context `{Collaborators}.

(** C9: constructing a handler of the multipart-upload family on the
    container name [b] followed by the upload-session suffix (the suffix
    being a non-empty constant) yields a handler whose container is exactly
    [b]; the strip happens once: on [b] followed by the suffix twice the
    container is [b] followed by the suffix. *)
Theorem multiupload_container_strips_suffix (k : klass) (r : Request)
    (a_container a_obj : option string) (a_headers : option Headers)
    (b : string) :
  MULTIUPLOAD_SUFFIX ≠ "" →
  in_multiupload_family k = true →
  or_attr a_container (container_name r) = Some (b +:+ MULTIUPLOAD_SUFFIX) →
  (∃ self, new k r a_container a_obj a_headers = Ok self ∧
           class_of self = k ∧ container self = Some b) ∧
  (∃ self, new k r (Some ((b +:+ MULTIUPLOAD_SUFFIX) +:+ MULTIUPLOAD_SUFFIX))
             a_obj a_headers = Ok self ∧
           class_of self = k ∧
           container self = Some (b +:+ MULTIUPLOAD_SUFFIX)).
Proof.
  intros Hsuf Hfam Hc.
  assert (Hend : ∀ s, PyStr.endswith (s +:+ MULTIUPLOAD_SUFFIX)
                        MULTIUPLOAD_SUFFIX = true)
    by (intros s; apply endswith_iff; by exists s).
  destruct k; try discriminate Hfam;
    unfold new, MultiUploadAclHandler_init, PartAclHandler_init; simpl;
    rewrite ?Hc, ?Hend, !(slice_to_neg_app _ _ Hsuf);
    (split; eexists; (split; [reflexivity | done])).
Qed.

(** C10: on any container name [c] (the suffix being a non-empty
    constant), [MultiUploadAclHandler], [UploadsAclHandler] and
    [UploadAclHandler] set the container to [c] without its last
    [len(MULTIUPLOAD_SUFFIX)] characters, whether or not [c] ends with the
    suffix; [PartAclHandler] strips the suffix when [c] ends with it and
    otherwise keeps [c] whole and turns the copy-source check on. *)
Theorem multiupload_container_slicing (k : klass) (r : Request)
    (a_container a_obj : option string) (a_headers : option Headers)
    (c : string) :
  MULTIUPLOAD_SUFFIX ≠ "" →
  in_multiupload_family k = true →
  or_attr a_container (container_name r) = Some c →
  ∃ self, new k r a_container a_obj a_headers = Ok self ∧
    if decide (k = PartAclHandler) then
      (∃ p, c = p +:+ MULTIUPLOAD_SUFFIX ∧ container self = Some p ∧
            check_copy_src self = false) ∨
      ((∀ p, c ≠ p +:+ MULTIUPLOAD_SUFFIX) ∧ container self = Some c ∧
       check_copy_src self = true)
    else
      ∃ kept dropped,
        c = kept +:+ dropped ∧
        String.length dropped =
          String.length MULTIUPLOAD_SUFFIX `min` String.length c ∧
        container self = Some kept.
Proof.
  intros Hsuf Hfam Hc.
  assert (Hstrip : ∃ kept dropped,
            c = kept +:+ dropped ∧
            String.length dropped =
              String.length MULTIUPLOAD_SUFFIX `min` String.length c ∧
            PyStr.slice_to_neg c (String.length MULTIUPLOAD_SUFFIX) = kept).
  { destruct (slice_to_neg_split c (String.length MULTIUPLOAD_SUFFIX)
                (length_nonempty _ Hsuf)) as (dropped & Hsplit & Hlen).
    by eexists _, dropped. }
  destruct Hstrip as (kept & dropped & Hsplit & Hlen & Hkept).
  destruct k; try discriminate Hfam;
    unfold new, MultiUploadAclHandler_init, PartAclHandler_init; simpl;
    rewrite Hc.
  - eexists. split; [reflexivity |]. simpl. rewrite Hkept.
    by exists kept, dropped.
  - destruct (PyStr.endswith c MULTIUPLOAD_SUFFIX) eqn:Hend.
    + eexists. split; [reflexivity |]. simpl. left.
      apply endswith_iff in Hend as [p ->]. exists p.
      by rewrite (slice_to_neg_app _ _ Hsuf).
    + eexists. split; [reflexivity |]. simpl. right.
      split; [|done]. intros p ->.
      assert (PyStr.endswith (p +:+ MULTIUPLOAD_SUFFIX) MULTIUPLOAD_SUFFIX
              = true) as Htrue by (apply endswith_iff; by exists p).
      congruence.
  - eexists. split; [reflexivity |]. simpl. rewrite Hkept.
    by exists kept, dropped.
  - eexists. split; [reflexivity |]. simpl. rewrite Hkept.
    by exists kept, dropped.
Qed.

End construction.

Lemma multiupload_container_strips_suffix_witness :
  let r := Fixture.request "DELETE" "alice" (Some "bucket+segments") None
             [] None in
  (∃ self, @new Fixture.collaborators UploadAclHandler r None None None
             = Ok self ∧
           class_of self = UploadAclHandler ∧
           container self = Some "bucket") ∧
  (∃ self, @new Fixture.collaborators UploadAclHandler r
             (Some "bucket+segments+segments") None None = Ok self ∧
           class_of self = UploadAclHandler ∧
           container self = Some "bucket+segments").
Proof.
  exact (@multiupload_container_strips_suffix Fixture.collaborators
           UploadAclHandler
           (Fixture.request "DELETE" "alice" (Some "bucket+segments") None
              [] None)
           None None None "bucket"
           ltac:(discriminate) eq_refl eq_refl).
Defined.

Lemma multiupload_container_slicing_witness :
  let r := Fixture.request "GET" "alice" (Some "holiday-photos") None
             [] None in
  (∃ self, @new Fixture.collaborators UploadsAclHandler r None None None
             = Ok self ∧
     ∃ kept dropped,
       "holiday-photos" = kept +:+ dropped ∧
       String.length dropped = 9 ∧
       container self = Some kept) ∧
  (∃ self, @new Fixture.collaborators PartAclHandler r None None None
             = Ok self ∧
     ((∃ p, "holiday-photos" = p +:+ "+segments" ∧ container self = Some p ∧
            check_copy_src self = false) ∨
      ((∀ p, "holiday-photos" ≠ p +:+ "+segments") ∧
       container self = Some "holiday-photos" ∧
       check_copy_src self = true))).
Proof.
  split.
  - exact (@multiupload_container_slicing Fixture.collaborators
             UploadsAclHandler
             (Fixture.request "GET" "alice" (Some "holiday-photos") None
                [] None)
             None None None "holiday-photos"
             ltac:(discriminate) eq_refl eq_refl).
  - exact (@multiupload_container_slicing Fixture.collaborators
             PartAclHandler
             (Fixture.request "GET" "alice" (Some "holiday-photos") None
                [] None)
             None None None "holiday-photos"
             ltac:(discriminate) eq_refl eq_refl).
Defined.

(** * Handler selection *)

Lemma app_suffix_inv (u s t : string) :
  u = s +:+ t → s = PyStr.take (String.length u - String.length t) u.
Proof.
  intros ->. rewrite length_app.
  replace (String.length s + String.length t - String.length t)
    with (String.length s) by lia.
  by rewrite take_app_exact.
Qed.

Lemma get_acl_handler_cases (name : string) :
  get_acl_handler name =
    if decide (name = "Bucket") then BucketAclHandler
    else if decide (name = "Object") then ObjectAclHandler
    else if decide (name = "S3Acl") then S3AclHandler
    else if decide (name = "MultiObjectDelete")
         then MultiObjectDeleteAclHandler
    else if decide (name = "MultiUpload") then MultiUploadAclHandler
    else if decide (name = "Part") then PartAclHandler
    else if decide (name = "Uploads") then UploadsAclHandler
    else if decide (name = "Upload") then UploadAclHandler
    else BaseAclHandler.
Proof.
  unfold get_acl_handler. cbn [foldr].
  assert (subclasses BaseAclHandler =
            [BucketAclHandler; ObjectAclHandler; S3AclHandler;
             MultiObjectDeleteAclHandler; MultiUploadAclHandler]) as ->
    by reflexivity.
  assert (subclasses MultiUploadAclHandler =
            [PartAclHandler; UploadsAclHandler; UploadAclHandler]) as ->
    by reflexivity.
  cbn [first_handler].
  assert (controller_of BucketAclHandler = "Bucket") as -> by reflexivity.
  assert (controller_of ObjectAclHandler = "Object") as -> by reflexivity.
  assert (controller_of S3AclHandler = "S3Acl") as -> by reflexivity.
  assert (controller_of MultiObjectDeleteAclHandler = "MultiObjectDelete")
    as -> by reflexivity.
  assert (controller_of MultiUploadAclHandler = "MultiUpload") as ->
    by reflexivity.
  assert (controller_of PartAclHandler = "Part") as -> by reflexivity.
  assert (controller_of UploadsAclHandler = "Uploads") as -> by reflexivity.
  assert (controller_of UploadAclHandler = "Upload") as -> by reflexivity.
  repeat (destruct (decide (name = _)) as [->|?]; [reflexivity |];
          rewrite (bool_decide_eq_false_2 (_ = name)) by congruence).
  reflexivity.
Qed.

(** X1: selection by controller name.  Every handler class other than
    the base one is selected by its own name without the suffix
    ["AclHandler"], except [S3AclHandler], which is selected by its name
    without ["Handler"] (["S3Acl"]) and not by ["S3"]; every other
    controller name selects [BaseAclHandler]. *)
Theorem get_acl_handler_selects :
  (∀ k name,
     k ≠ BaseAclHandler →
     class_name k = name +:+ (if decide (k = S3AclHandler)
                              then "Handler" else "AclHandler") →
     get_acl_handler name = k) ∧
  get_acl_handler "S3" = BaseAclHandler ∧
  (∀ name,
     get_acl_handler name = BaseAclHandler ↔
     name ∉ ["Bucket"; "Object"; "S3Acl"; "MultiObjectDelete"; "MultiUpload";
             "Part"; "Uploads"; "Upload"]).
Proof.
  split; [|split].
  - intros k name Hk Hname. apply app_suffix_inv in Hname.
    destruct k; try done; simpl in Hname; subst name; reflexivity.
  - reflexivity.
  - intros name. rewrite get_acl_handler_cases.
    rewrite !not_elem_of_cons.
    repeat (destruct (decide (name = _)) as [->|?];
            [split; [discriminate | intros Hno; exfalso; tauto] |]).
    split; [|done]. intros _. repeat (split; [done |]). apply not_elem_of_nil.
Qed.

Lemma get_acl_handler_selects_witness :
  get_acl_handler "Uploads" = UploadsAclHandler ∧
  get_acl_handler "S3Acl" = S3AclHandler.
Proof.
  split.
  - apply (proj1 get_acl_handler_selects UploadsAclHandler "Uploads");
      [discriminate | reflexivity].
  - apply (proj1 get_acl_handler_selects S3AclHandler "S3Acl");
      [discriminate | reflexivity].
Defined.

(** * More on [get_acl] *)

Section get_acl_outcomes.
Context `{Collaborators}.

(** X2: with no ACL in the headers and no body ([None] or the empty
    string), [get_acl] raises [MissingSecurityHeader] naming the header
    [x-amz-acl], without calling the body parser. *)
Theorem get_acl_missing_input (hs : Headers) (body : option string)
    (bucket_owner : Owner) (object_owner : option Owner) :
  from_headers hs bucket_owner object_owner (Some false) = Ok None →
  PyStr.truthy_opt body = false →
  get_acl hs body bucket_owner object_owner =
    Raise (MissingSecurityHeader "Your request was missing a required header"
             "x-amz-acl").
Proof.
  intros Hhdr Hbody. unfold get_acl. rewrite Hhdr.
  destruct body as [b|]; [|done]. simpl in Hbody. by rewrite Hbody.
Qed.

(** X3: with no ACL in the headers, a non-empty body that is not
    well-formed ([XMLSyntaxError]) or not valid ([DocumentInvalid]) makes
    [get_acl] raise [MalformedACLError]; any other exception of the parser
    is raised unchanged. *)
Theorem get_acl_malformed_body (hs : Headers) (body : string)
    (bucket_owner : Owner) (object_owner : option Owner) :
  from_headers hs bucket_owner object_owner (Some false) = Ok None →
  body ≠ "" →
  get_acl hs (Some body) bucket_owner object_owner =
    match from_body body with
    | Parsed acl => Ok acl
    | XMLSyntaxError | DocumentInvalid => Raise MalformedACLError
    | OtherError e => Raise e
    end.
Proof.
  intros Hhdr Hbody. unfold get_acl. rewrite Hhdr.
  by destruct body.
Qed.

(** X4: [get_acl] returns an ACL in exactly two cases, which exclude each
    other: the headers gave that ACL and there is no body, or the headers
    gave none and the non-empty body parsed to that ACL. *)
Theorem get_acl_Ok_iff (hs : Headers) (body : option string)
    (bucket_owner : Owner) (object_owner : option Owner) (acl : ACL) :
  get_acl hs body bucket_owner object_owner = Ok acl ↔
  (from_headers hs bucket_owner object_owner (Some false) = Ok (Some acl) ∧
   PyStr.truthy_opt body = false) ∨
  (from_headers hs bucket_owner object_owner (Some false) = Ok None ∧
   ∃ b, body = Some b ∧ b ≠ "" ∧ from_body b = Parsed acl).
Proof.
  unfold get_acl.
  destruct (from_headers _ _ _ _) as [[hacl|]|e].
  - destruct (PyStr.truthy_opt body) eqn:Hb; split.
    + discriminate.
    + intros [[_ ?]|[? _]]; discriminate.
    + intros [= ->]. by left.
    + intros [[[= ->] _]|[? _]]; [done | discriminate].
  - destruct body as [[|ch b]|]; simpl; split;
      try discriminate;
      try (intros [[? _]|(_ & b' & Hb' & Hne & Hp)]; [discriminate |];
           try discriminate Hb'; injection Hb' as <-; try done).
    + destruct (from_body _) as [pacl| | |e] eqn:Hparse; try discriminate.
      intros [= ->]. right. split; [done |]. eexists. split; [done |].
      split; [discriminate | done].
    + by rewrite Hp.
  - split; [discriminate |]. intros [[? _]|[? _]]; discriminate.
Qed.

End get_acl_outcomes.

Lemma get_acl_missing_input_witness :
  @get_acl Fixture.collaborators [] (Some "") Fixture.alice None =
    Raise (MissingSecurityHeader "Your request was missing a required header"
             "x-amz-acl").
Proof.
  apply (@get_acl_missing_input Fixture.collaborators); reflexivity.
Defined.

Lemma get_acl_malformed_body_witness :
  @get_acl Fixture.collaborators [] (Some "<not xml") Fixture.alice None =
    Raise MalformedACLError.
Proof.
  apply (@get_acl_malformed_body Fixture.collaborators [] "<not xml"
           Fixture.alice None); [reflexivity | discriminate].
Defined.

(** * More on the generic check *)

Section generic_check_outcomes.
Context `{Collaborators}.
Implicit Types (self : handler) (st : State).

(** A check with a container and a resolved permission is one probe and one
    permission evaluation. *)
Lemma _handle_acl_run self a_sw a_c a_o a_p a_hs st res p :
  PyStr.truthy_opt (or_attr a_c (container self)) = true →
  resolve self (effective_sw_method a_sw (req st))
    (resource_of (or_attr a_o (obj self))) a_p = (res, Some p) →
  PyStr.truthy p = true →
  _handle_acl self a_sw a_c a_o a_p a_hs st =
    probe_and_check self res p (effective_sw_method a_sw (req st))
      (or_attr a_c (container self)) (or_attr a_o (obj self))
      (if_None a_hs (headers self)) st.
Proof.
  intros Hc Hres Hp.
  pose proof (resolve_resource self (effective_sw_method a_sw (req st))
                (or_attr a_o (obj self)) a_p) as Hkind.
  rewrite Hres in Hkind. simpl in Hkind.
  unfold _handle_acl, bind, get_req. simpl. rewrite Hc, Hres, Hp. simpl.
  rewrite (probe_run _ _ _ _ _ Hkind). unfold probe_and_check, checked_acl.
  simpl. destruct (get_acl_response _ _ _) as [w [resp|e]]; simpl; [|done].
  destruct (check_permission _ _ _) as [[]|e]; simpl; [|done].
  by destruct (decide (effective_sw_method _ _ = _)).
Qed.

(** Without a resolved permission the check stops at the fatal error. *)
Lemma _handle_acl_unresolved self a_sw a_c a_o a_p a_hs st res perm :
  PyStr.truthy_opt (or_attr a_c (container self)) = true →
  resolve self (effective_sw_method a_sw (req st))
    (resource_of (or_attr a_o (obj self))) a_p = (res, perm) →
  PyStr.truthy_opt perm = false →
  _handle_acl self a_sw a_c a_o a_p a_hs st =
    (st, Raise (Exception "No permission to be checked exists")).
Proof.
  intros Hc Hres Hp.
  unfold _handle_acl, bind, get_req. simpl. rewrite Hc, Hres. simpl.
  destruct perm as [p|]; [|done]. simpl in Hp. by rewrite Hp.
Qed.

Lemma _handle_acl_no_container self a_sw a_c a_o a_p a_hs st :
  PyStr.truthy_opt (or_attr a_c (container self)) = false →
  _handle_acl self a_sw a_c a_o a_p a_hs st = (st, Ok None).
Proof.
  intros Hc. unfold _handle_acl, bind, get_req. simpl. by rewrite Hc.
Qed.

(** X5: without a container name ([None] or the empty string) the generic
    check returns [None] at once: no backend call, no permission
    evaluation and no configuration error, even when no permission is given
    and the table has no entry for the verbs. *)
Theorem generic_check_skips_without_container self a_sw a_c a_o a_p a_hs st :
  PyStr.truthy_opt (or_attr a_c (container self)) = false →
  _handle_acl self a_sw a_c a_o a_p a_hs st = (st, Ok None) ∧
  (_handle_acl self a_sw a_c a_o a_p a_hs st).2
    ≠ Raise (Exception "No permission to be checked exists").
Proof.
  intros Hc. rewrite (_handle_acl_no_container _ _ _ _ _ _ _ Hc). done.
Qed.

(** X6: the generic check lets nothing through unevaluated.  When it
    returns on a request with a container, the backend answered its single
    probe and the permission evaluation on the ACL of that answer
    succeeded for the handler's user; the value returned is that answer
    when the backend verb is HEAD and [None] otherwise. *)
Theorem generic_check_success self a_sw a_c a_o a_p a_hs st st' v :
  PyStr.truthy_opt (or_attr a_c (container self)) = true →
  _handle_acl self a_sw a_c a_o a_p a_hs st = (st', Ok v) →
  ∃ res p w resp,
    let sw_method := effective_sw_method a_sw (req st) in
    let cl := probe_call res (or_attr a_c (container self))
                (or_attr a_o (obj self)) (if_None a_hs (headers self)) in
    resolve self sw_method (resource_of (or_attr a_o (obj self))) a_p
      = (res, Some p) ∧
    p ≠ "" ∧
    get_acl_response (world st) (req st) cl = (w, Ok resp) ∧
    check_permission (checked_acl res resp) (h_user_id self) p = Ok tt ∧
    st' = mkState (req st) w (trace st ++ [BackendCall cl]) ∧
    v = if decide (sw_method = "HEAD") then Some resp else None.
Proof.
  intros Hc Hrun.
  destruct (resolve self (effective_sw_method a_sw (req st))
              (resource_of (or_attr a_o (obj self))) a_p)
    as [res perm] eqn:Hres.
  destruct (PyStr.truthy_opt perm) eqn:Hp.
  - destruct perm as [p|]; [|done]. simpl in Hp.
    rewrite (_handle_acl_run _ _ _ _ _ _ _ _ _ Hc Hres Hp) in Hrun.
    unfold probe_and_check in Hrun.
    destruct (get_acl_response _ _ _) as [w [resp|e]] eqn:Hprobe;
      simpl in Hrun; [|discriminate Hrun].
    destruct (check_permission _ _ _) as [[]|e] eqn:Hperm;
      [|discriminate Hrun].
    injection Hrun as <- <-. exists res, p, w, resp. simpl.
    repeat split; try done. by destruct p.
  - rewrite (_handle_acl_unresolved _ _ _ _ _ _ _ _ _ Hc Hres Hp) in Hrun.
    discriminate Hrun.
Qed.

(** X7: when the generic check raises, the request is as it was, and the
    exception is either the fatal "No permission to be checked exists",
    raised before any backend call, or the exception of the single probe,
    or the exception of the permission evaluation on the probe's answer. *)
Theorem generic_check_failure self a_sw a_c a_o a_p a_hs st st' e :
  _handle_acl self a_sw a_c a_o a_p a_hs st = (st', Raise e) →
  req st' = req st ∧
  ((st' = st ∧ e = Exception "No permission to be checked exists") ∨
   ∃ res p cl,
     trace st' = trace st ++ [BackendCall cl] ∧
     c_method cl = "HEAD" ∧
     ((get_acl_response (world st) (req st) cl).2 = Raise e ∨
      ∃ resp, (get_acl_response (world st) (req st) cl).2 = Ok resp ∧
              check_permission (checked_acl res resp) (h_user_id self) p
                = Raise e)).
Proof.
  intros Hrun.
  split.
  { pose proof (_handle_acl_req self a_sw a_c a_o a_p a_hs st) as Hreq.
    by rewrite Hrun in Hreq. }
  destruct (PyStr.truthy_opt (or_attr a_c (container self))) eqn:Hc.
  2:{ rewrite (_handle_acl_no_container _ _ _ _ _ _ _ Hc) in Hrun.
      discriminate Hrun. }
  destruct (resolve self (effective_sw_method a_sw (req st))
              (resource_of (or_attr a_o (obj self))) a_p)
    as [res perm] eqn:Hres.
  destruct (PyStr.truthy_opt perm) eqn:Hp.
  - destruct perm as [p|]; [|done]. simpl in Hp.
    rewrite (_handle_acl_run _ _ _ _ _ _ _ _ _ Hc Hres Hp) in Hrun.
    unfold probe_and_check in Hrun. right.
    exists res, p, (probe_call res (or_attr a_c (container self))
                      (or_attr a_o (obj self)) (if_None a_hs (headers self))).
    injection Hrun as <- Hout. simpl. split; [done |].
    split; [unfold probe_call; by destruct (decide (res = "object")) |].
    destruct (get_acl_response _ _ _).2 as [resp|e'] eqn:Hprobe.
    + right. exists resp. split; [done |].
      destruct (check_permission _ _ _) as [[]|e'']; [done | congruence].
    + left. congruence.
  - rewrite (_handle_acl_unresolved _ _ _ _ _ _ _ _ _ Hc Hres Hp) in Hrun.
    left. by injection Hrun as <- <-.
Qed.

(** X8: an explicit permission bypasses the table: the check evaluates the
    permission given, on the object when an object name is in play and on
    the container otherwise; no table entry and no resource override is
    applied. *)
Theorem generic_check_explicit_permission self a_sw a_c a_o p a_hs st :
  PyStr.truthy_opt (or_attr a_c (container self)) = true →
  p ≠ "" →
  _handle_acl self a_sw a_c a_o (Some p) a_hs st =
    probe_and_check self (resource_of (or_attr a_o (obj self))) p
      (effective_sw_method a_sw (req st))
      (or_attr a_c (container self)) (or_attr a_o (obj self))
      (if_None a_hs (headers self)) st.
Proof.
  intros Hc Hp. assert (PyStr.truthy p = true) as Htruthy by by destruct p.
  apply _handle_acl_run; [done | | done].
  unfold resolve. simpl. by rewrite Htruthy.
Qed.

(** X9: without an explicit permission, a table entry decides the check:
    its permission is evaluated, on the resource it redirects to when it
    has a redirection and on the addressed resource otherwise. *)
Theorem generic_check_table_driven self a_sw a_c a_o a_p a_hs st rule :
  PyStr.truthy_opt (or_attr a_c (container self)) = true →
  PyStr.truthy_opt a_p = false →
  ACL_MAP !! (method self, effective_sw_method a_sw (req st),
              resource_of (or_attr a_o (obj self))) = Some rule →
  _handle_acl self a_sw a_c a_o a_p a_hs st =
    probe_and_check self
      (py_or (Resource rule) (resource_of (or_attr a_o (obj self))))
      (Permission rule) (effective_sw_method a_sw (req st))
      (or_attr a_c (container self)) (or_attr a_o (obj self))
      (if_None a_hs (headers self)) st.
Proof.
  intros Hc Hp Hrule.
  apply _handle_acl_run; [done | | by eapply ACL_MAP_Permission_truthy].
  unfold resolve. by rewrite Hp, Hrule.
Qed.

(** X10: deleting an object is authorized on its container.  For an
    incoming DELETE checked with backend verb DELETE on a named object, the
    single probe is the container probe (HEAD on the container with an
    empty object name and no headers), the permission evaluated is WRITE on
    the bucket ACL, and nothing is returned. *)
Theorem object_delete_checks_container_WRITE self a_c a_o a_hs st :
  method self = "DELETE" →
  PyStr.truthy_opt (or_attr a_c (container self)) = true →
  PyStr.truthy_opt (or_attr a_o (obj self)) = true →
  let c := or_attr a_c (container self) in
  let answer :=
    get_acl_response (world st) (req st) (mkCall "HEAD" c (Some "") None) in
  _handle_acl self (Some "DELETE") a_c a_o None a_hs st =
    (mkState (req st) answer.1
       (trace st ++ [BackendCall (mkCall "HEAD" c (Some "") None)]),
     match answer.2 with
     | Raise e => Raise e
     | Ok resp =>
         match check_permission (resp_bucket_acl resp) (h_user_id self)
                 "WRITE" with
         | Raise e => Raise e
         | Ok _ => Ok None
         end
     end).
Proof.
  intros Hm Hc Ho. simpl.
  rewrite (_handle_acl_run self (Some "DELETE") a_c a_o None a_hs st
             "container" "WRITE" Hc); [reflexivity | | reflexivity].
  unfold resolve, resource_of. rewrite Hm, Ho. reflexivity.
Qed.

End generic_check_outcomes.

Lemma generic_check_skips_without_container_witness :
  let r := Fixture.request "GET" "bob" None None [] None in
  let self := BaseAclHandler_init BaseAclHandler r None None None in
  ACL_MAP !! ("GET", "PUT", "container") = None ∧
  @_handle_acl Fixture.collaborators self (Some "PUT") None None None None
    (Fixture.start r) = (Fixture.start r, Ok None).
Proof.
  split; [reflexivity |].
  apply (@generic_check_skips_without_container Fixture.collaborators).
  reflexivity.
Defined.

Lemma generic_check_success_witness :
  let r := Fixture.request "HEAD" "alice" (Some "bucket") (Some "key")
             [] None in
  let self := BaseAclHandler_init BaseAclHandler r None None None in
  ∃ res p (w : @World Fixture.collaborators) resp,
    resolve self "HEAD" "object" None = (res, Some p) ∧
    p ≠ "" ∧
    @get_acl_response Fixture.collaborators (world (Fixture.start r)) r
      (probe_call res (Some "bucket") (Some "key") []) = (w, Ok resp) ∧
    @check_permission Fixture.collaborators (checked_acl res resp) "alice" p
      = Ok tt ∧
    mkState r (world (Fixture.start r))
      [BackendCall (mkCall "HEAD" (Some "bucket") (Some "key") (Some []))]
      = mkState r w
          ([] ++ [BackendCall (probe_call res (Some "bucket") (Some "key")
                                 [])]) ∧
    Some Fixture.answer = Some resp.
Proof.
  exact (@generic_check_success Fixture.collaborators
           (BaseAclHandler_init BaseAclHandler
              (Fixture.request "HEAD" "alice" (Some "bucket") (Some "key")
                 [] None) None None None)
           None None None None None
           (Fixture.start
              (Fixture.request "HEAD" "alice" (Some "bucket") (Some "key")
                 [] None))
           _ _ eq_refl eq_refl).
Defined.

Lemma generic_check_failure_witness :
  let r := Fixture.request "GET" "bob" (Some "bucket") (Some "key") [] None in
  let self := BaseAclHandler_init BaseAclHandler r None None None in
  (@_handle_acl Fixture.collaborators self None None None None None
     (Fixture.start r)).2 = Raise AccessDenied ∧
  req (@_handle_acl Fixture.collaborators self None None None None None
         (Fixture.start r)).1 = r.
Proof.
  split; [reflexivity |].
  exact (proj1 (@generic_check_failure Fixture.collaborators
                  (BaseAclHandler_init BaseAclHandler
                     (Fixture.request "GET" "bob" (Some "bucket")
                        (Some "key") [] None) None None None)
                  None None None None None
                  (Fixture.start
                     (Fixture.request "GET" "bob" (Some "bucket")
                        (Some "key") [] None))
                  _ AccessDenied eq_refl)).
Defined.

Lemma generic_check_explicit_permission_witness :
  let r := Fixture.request "DELETE" "alice" (Some "bucket") (Some "key")
             [] None in
  let self := BaseAclHandler_init BaseAclHandler r None None None in
  @_handle_acl Fixture.collaborators self (Some "DELETE") None None
    (Some "READ_ACP") None (Fixture.start r) =
  probe_and_check self "object" "READ_ACP" "DELETE" (Some "bucket")
    (Some "key") [] (Fixture.start r).
Proof.
  apply (@generic_check_explicit_permission Fixture.collaborators);
    [reflexivity | discriminate].
Defined.

Lemma generic_check_table_driven_witness :
  let r := Fixture.request "GET" "alice" (Some "bucket") None [] None in
  let self := BaseAclHandler_init BaseAclHandler r None None None in
  @_handle_acl Fixture.collaborators self (Some "HEAD") None None None None
    (Fixture.start r) =
  probe_and_check self "container" "OWNER" "HEAD" (Some "bucket") None []
    (Fixture.start r).
Proof.
  apply (@generic_check_table_driven Fixture.collaborators
           (BaseAclHandler_init BaseAclHandler
              (Fixture.request "GET" "alice" (Some "bucket") None [] None)
              None None None)
           (Some "HEAD") None None None None _ (AclCheck None "OWNER"));
    reflexivity.
Defined.

Lemma object_delete_checks_container_WRITE_witness :
  let r := Fixture.request "DELETE" "alice" (Some "bucket") (Some "key")
             [] None in
  let self := BaseAclHandler_init ObjectAclHandler r None None None in
  @_handle_acl Fixture.collaborators self (Some "DELETE") None None None None
    (Fixture.start r) =
  (mkState r (world (Fixture.start r))
     [BackendCall (mkCall "HEAD" (Some "bucket") (Some "") None)],
   Ok None).
Proof.
  apply (@object_delete_checks_container_WRITE Fixture.collaborators
           (BaseAclHandler_init ObjectAclHandler
              (Fixture.request "DELETE" "alice" (Some "bucket") (Some "key")
                 [] None) None None None));
    reflexivity.
Defined.

(** * More on the specialised handlers *)

Section handler_outcomes.
Context `{Collaborators}.
Implicit Types (self : handler) (st : State).

Lemma or_attr_same {A} (x : option A) : or_attr x x = x.
Proof. by destruct x. Qed.

Lemma bind_discard {A} (m : M A) st :
  (let* _ := m in ret None) st = discarding (m st).
Proof.
  unfold bind, discarding, ret. by destruct (m st) as [st' [v|e]].
Qed.

Lemma discarding_req {A} (run : State * result A) :
  req (discarding run).1 = req run.1.
Proof. reflexivity. Qed.

(** X11: creating an object attaches the object ACL only after the check
    on the container went through.  When [ObjectAclHandler.PUT] returns,
    it returns [None], its generic check had handed back the container's
    answer, and the request's [object_acl] is the ACL built from the
    request headers with the owner of the bucket ACL as bucket owner and
    the caller as object owner, nothing else of the request having
    changed; when it raises, the request is as it was. *)
Theorem object_PUT_outcome self st st' out :
  ObjectAclHandler_PUT self st = (st', out) →
  match out with
  | Raise e => req st' = req st
  | Ok v =>
      v = None ∧
      ∃ st1 b_resp acl,
        _handle_acl self (Some "HEAD") None (Some "") None None st
          = (st1, Ok (Some b_resp)) ∧
        from_headers (req_headers (req st)) (owner (resp_bucket_acl b_resp))
          (Some (mkOwner (h_user_id self) (h_user_id self))) None = Ok acl ∧
        object_acl (req st') = acl ∧
        bucket_acl (req st') = bucket_acl (req st) ∧
        st' = mkState (set_object_acl acl (req st)) (world st1)
                (trace st1 ++ [SetObjectAcl acl])
  end.
Proof.
  unfold ObjectAclHandler_PUT, bind, get_req, lift. simpl.
  pose proof (_handle_acl_req self (Some "HEAD") None (Some "") None None st)
    as Hreq.
  destruct (_handle_acl self (Some "HEAD") None (Some "") None None st)
    as [st1 [[b_resp|]|e]]; simpl in Hreq.
  - rewrite Hreq.
    destruct (from_headers _ _ _ _) as [acl|e] eqn:Hacl; simpl.
    + intros [= <- <-]. split; [done |]. exists st1, b_resp, acl.
      repeat split; done.
    + by intros [= <- <-].
  - by intros [= <- <-].
  - by intros [= <- <-].
Qed.

(** X12: for an incoming PUT, [ObjectAclHandler.PUT] probes the container
    (HEAD, empty object name) and evaluates WRITE on the bucket ACL for the
    caller; a backend error or a refusal ends the run with that exception
    and the request's [object_acl] as it was; otherwise the ACL is built
    from the headers and the request's [object_acl] is that ACL. *)
Theorem object_PUT_checks_container_WRITE self st :
  method self = "PUT" →
  PyStr.truthy_opt (container self) = true →
  let cl := mkCall "HEAD" (container self) (Some "") None in
  let answer := get_acl_response (world st) (req st) cl in
  let st1 := mkState (req st) answer.1 (trace st ++ [BackendCall cl]) in
  ObjectAclHandler_PUT self st =
    match answer.2 with
    | Raise e => (st1, Raise e)
    | Ok b_resp =>
        match check_permission (resp_bucket_acl b_resp) (h_user_id self)
                "WRITE" with
        | Raise e => (st1, Raise e)
        | Ok _ =>
            match from_headers (req_headers (req st))
                    (owner (resp_bucket_acl b_resp))
                    (Some (mkOwner (h_user_id self) (h_user_id self)))
                    None with
            | Raise e => (st1, Raise e)
            | Ok acl =>
                (mkState (set_object_acl acl (req st)) answer.1
                   (trace st1 ++ [SetObjectAcl acl]), Ok None)
            end
        end
    end ∧
  match (ObjectAclHandler_PUT self st).2 with
  | Ok _ =>
      ∃ b_resp,
        answer.2 = Ok b_resp ∧
        check_permission (resp_bucket_acl b_resp) (h_user_id self) "WRITE"
          = Ok tt ∧
        from_headers (req_headers (req st)) (owner (resp_bucket_acl b_resp))
          (Some (mkOwner (h_user_id self) (h_user_id self))) None
          = Ok (object_acl (req (ObjectAclHandler_PUT self st).1))
  | Raise _ =>
      object_acl (req (ObjectAclHandler_PUT self st).1) = object_acl (req st)
  end.
Proof.
  intros Hm Hc. simpl.
  match goal with |- ?run = ?rhs ∧ _ => assert (Hrun : run = rhs) end.
  { unfold ObjectAclHandler_PUT, bind at 1.
    rewrite (_handle_acl_run self (Some "HEAD") None (Some "") None None st
               "container" "WRITE"); [| done | | done].
    2:{ unfold resolve. simpl. by rewrite Hm. }
    unfold probe_and_check, checked_acl, probe_call. simpl.
    destruct (get_acl_response _ _ _) as [w [b_resp|e]]; simpl; [|done].
    destruct (check_permission _ _ _) as [[]|e]; simpl; [|done].
    unfold bind, get_req, lift. simpl.
    by destruct (from_headers _ _ _ _) as [acl|e]. }
  split; [exact Hrun |]. rewrite Hrun.
  destruct (get_acl_response _ _ _).2 as [b_resp|e]; simpl; [|done].
  destruct (check_permission _ _ _) as [[]|e] eqn:Hperm; simpl; [|done].
  destruct (from_headers _ _ _ _) as [acl|e] eqn:Hacl; simpl; [|done].
  by exists b_resp.
Qed.

(** X13: on a request with no container name, [ObjectAclHandler.PUT]
    raises [AttributeError]: its check returns [None] and the bucket ACL of
    that is asked for.  The backend is not contacted. *)
Theorem object_PUT_without_container self st :
  PyStr.truthy_opt (container self) = false →
  ObjectAclHandler_PUT self st = (st, Raise AttributeError).
Proof.
  intros Hc. unfold ObjectAclHandler_PUT, bind at 1.
  by rewrite (_handle_acl_no_container self (Some "HEAD") None (Some "")
                None None st).
Qed.

(** X14: reading an ACL requires READ_ACP, whatever the incoming verb:
    [S3AclHandler.GET] probes the object when an object name is in play and
    the container otherwise, evaluates READ_ACP on the ACL returned, and
    returns [None]. *)
Theorem S3Acl_GET_checks_READ_ACP self st :
  PyStr.truthy_opt (container self) = true →
  S3AclHandler_GET self st =
    discarding
      (probe_and_check self (resource_of (obj self)) "READ_ACP" "HEAD"
         (container self) (obj self) (headers self) st).
Proof.
  intros Hc. unfold S3AclHandler_GET. rewrite bind_discard.
  by rewrite (_handle_acl_run self (Some "HEAD") None None (Some "READ_ACP")
                None st (resource_of (obj self)) "READ_ACP").
Qed.

(** The ACL-writing method for a verb. *)
Lemma S3Acl_write_req (post : bool) self st :
  let run := (if post then S3AclHandler_POST else S3AclHandler_PUT) self st in
  ∀ e, run.2 = Raise e → req run.1 = req st.
Proof.
  assert (Hcheck : ∀ sw p st0,
            req (_handle_acl self sw None None p None st0).1 = req st0)
    by (intros; apply _handle_acl_req).
  destruct post; simpl; intros e.
  - unfold S3AclHandler_POST, bind, get_req, lift. simpl.
    destruct (is_bucket_request (req st)).
    + pose proof (Hcheck (Some "HEAD") (Some "WRITE_ACP") st) as Hreq.
      destruct (_handle_acl _ _ _ _ _ _ st) as [st1 [resp|e1]];
        simpl in Hreq; [|done].
      destruct (xml (req st1)) as [body|e2]; [|done].
      destruct resp as [b|]; [|done].
      destruct (get_acl _ _ _ _) as [req_acl|e3]; [|done].
      destruct (check_owner _ _) as [[]|e4]; [discriminate | done].
    + pose proof (Hcheck (Some (method self)) None st) as Hreq.
      by destruct (_handle_acl _ _ _ _ _ _ st) as [st1 [v|e1]].
  - unfold S3AclHandler_PUT, bind, get_req, lift. simpl.
    destruct (is_object_request (req st)).
    + rewrite backend_call_run. simpl.
      destruct (get_acl_response _ _ _) as [w [b_resp|e0]]; simpl; [|done].
      match goal with
      | |- context [_handle_acl _ _ _ _ _ _ ?s] =>
          pose proof (Hcheck (Some "HEAD") (Some "WRITE_ACP") s) as Hreq;
          destruct (_handle_acl self (Some "HEAD") None None
                      (Some "WRITE_ACP") None s) as [st1 [resp|e1]]
      end; simpl in Hreq; [|done].
      destruct (xml (req st1)) as [body|e2]; [|done].
      destruct resp as [o|]; [|done].
      destruct (get_acl _ _ _ _) as [req_acl|e3]; [|done].
      destruct (check_owner _ _) as [[]|e4]; [discriminate | done].
    + pose proof (Hcheck (Some (method self)) None st) as Hreq.
      by destruct (_handle_acl _ _ _ _ _ _ st) as [st1 [v|e1]].
Qed.

(** X15: a failed ACL write attaches nothing.  Whenever
    [S3AclHandler.PUT] or [S3AclHandler.POST] raises (backend error,
    refusal, missing or malformed or conflicting ACL input, owner
    mismatch), the request is as it was before the call. *)
Theorem S3Acl_write_failure_keeps_request (post : bool) self st st' e :
  (if post then S3AclHandler_POST else S3AclHandler_PUT) self st
    = (st', Raise e) →
  req st' = req st ∧ bucket_acl (req st') = bucket_acl (req st) ∧
  object_acl (req st') = object_acl (req st).
Proof.
  intros Hrun. pose proof (S3Acl_write_req post self st e) as Hreq.
  simpl in Hreq. rewrite Hrun in Hreq. simpl in Hreq.
  by rewrite Hreq.
Qed.

(** X16: the fallbacks of the ACL-writing methods find no table entry for
    their own verbs.  [S3AclHandler.PUT] on a request that is not an object
    request, and [S3AclHandler.POST] on one that is not a bucket request,
    run the generic check with the incoming verb as backend verb; when that
    verb is PUT or POST and a container is named, the check raises the
    fatal "No permission to be checked exists" before any backend call. *)
Theorem S3Acl_write_fallback_is_fatal (post : bool) self st :
  (if post then is_bucket_request (req st) else is_object_request (req st))
    = false →
  method self = "PUT" ∨ method self = "POST" →
  PyStr.truthy_opt (container self) = true →
  (if post then S3AclHandler_POST else S3AclHandler_PUT) self st =
    (st, Raise (Exception "No permission to be checked exists")).
Proof.
  intros Hkind Hm Hc.
  assert (Hfatal :
    _handle_acl self (Some (method self)) None None None None st =
      (st, Raise (Exception "No permission to be checked exists"))).
  { apply (_handle_acl_unresolved self (Some (method self)) None None None
             None st (resource_of (obj self)) None); [done | | done].
    unfold resolve, resource_of. simpl.
    destruct Hm as [-> | ->]; by destruct (PyStr.truthy_opt (obj self)). }
  destruct post.
  - unfold S3AclHandler_POST, bind at 1, get_req. rewrite Hkind.
    rewrite bind_discard. by rewrite Hfatal.
  - unfold S3AclHandler_PUT, bind at 1, get_req. rewrite Hkind.
    rewrite bind_discard. by rewrite Hfatal.
Qed.

End handler_outcomes.

(** * More on the multipart-upload family *)

Section multiupload_outcomes.
Context `{Collaborators}.
Implicit Types (self : handler) (st : State).

(** A check on the handler's own container with no object name in play
    and no permission given probes the container, if it probes at all. *)
Lemma _handle_acl_container_level self a_sw a_o a_hs st :
  PyStr.truthy_opt (or_attr a_o (obj self)) = false →
  let run := _handle_acl self a_sw (container self) a_o None a_hs st in
  req run.1 = req st ∧
  (run.1 = st ∨
   trace run.1 = trace st ++
     [BackendCall (mkCall "HEAD" (container self) (Some "") None)]).
Proof.
  intros Ho. simpl. split; [apply _handle_acl_req |].
  destruct (PyStr.truthy_opt (container self)) eqn:Hc.
  2:{ left. rewrite _handle_acl_no_container; [done |].
      by rewrite or_attr_same. }
  assert (Hc' : PyStr.truthy_opt (or_attr (container self) (container self))
                = true) by by rewrite or_attr_same.
  destruct (ACL_MAP !! (method self, effective_sw_method a_sw (req st),
                        "container")) as [rule|] eqn:Hrule.
  - right.
    rewrite (_handle_acl_run self a_sw (container self) a_o None a_hs st
               "container" (Permission rule) Hc').
    + unfold probe_and_check, probe_call. simpl. by rewrite or_attr_same.
    + unfold resolve, resource_of. rewrite Ho. simpl. rewrite Hrule.
      by destruct (ACL_MAP_Resource _ _ Hrule) as [-> | ->].
    + by eapply ACL_MAP_Permission_truthy.
  - left.
    rewrite (_handle_acl_unresolved self a_sw (container self) a_o None a_hs
               st "container" None Hc'); [done | | done].
    unfold resolve, resource_of. rewrite Ho. simpl. by rewrite Hrule.
Qed.

Lemma discarding_container_level self a_sw a_o a_hs st :
  PyStr.truthy_opt (or_attr a_o (obj self)) = false →
  let run :=
    discarding (_handle_acl self a_sw (container self) a_o None a_hs st) in
  req run.1 = req st ∧
  (run.1 = st ∨
   trace run.1 = trace st ++
     [BackendCall (mkCall "HEAD" (container self) (Some "") None)]) ∧
  (∀ v, run.2 = Ok v → v = None).
Proof.
  intros Ho. simpl.
  destruct (_handle_acl_container_level self a_sw a_o a_hs st Ho)
    as [Hreq Htrace].
  split; [done |]. split; [done |].
  intros v. unfold discarding. simpl.
  destruct (_handle_acl _ _ _ _ _ _ _).2; by intros [= <-].
Qed.

(** X17: the checks of the multipart-upload family stay on the base
    container.  [MultiUploadAclHandler.HEAD], [UploadsAclHandler.GET],
    [UploadsAclHandler.PUT], [UploadAclHandler.HEAD], and
    [PartAclHandler.HEAD] when it is not checking a copy source, leave the
    request alone, issue either no backend call or the single container
    probe (HEAD on the handler's container, empty object name, no headers)
    whatever the object name of the request is, and return [None]. *)
Theorem multiupload_checks_stay_on_container
    (f : handler → M (option Resp)) self st :
  f ∈ [MultiUploadAclHandler_HEAD; UploadsAclHandler_GET;
       UploadsAclHandler_PUT; UploadAclHandler_HEAD] ∨
  (f = PartAclHandler_HEAD ∧ check_copy_src self = false) →
  req (f self st).1 = req st ∧
  ((f self st).1 = st ∨
   trace (f self st).1 = trace st ++
     [BackendCall (mkCall "HEAD" (container self) (Some "") None)]) ∧
  (∀ v, (f self st).2 = Ok v → v = None).
Proof.
  intros [Hf | [-> Hsrc]].
  - repeat (apply elem_of_cons in Hf as [->|Hf]).
    + unfold MultiUploadAclHandler_HEAD. rewrite bind_discard.
      by apply discarding_container_level.
    + unfold UploadsAclHandler_GET. rewrite bind_discard.
      by apply discarding_container_level.
    + unfold UploadsAclHandler_PUT.
      destruct (PyStr.truthy_opt (obj self)) eqn:Ho; simpl.
      * split; [done |]. split; [by left |]. by intros v [= <-].
      * rewrite bind_discard. by apply discarding_container_level.
    + unfold UploadAclHandler_HEAD. rewrite bind_discard.
      by apply discarding_container_level.
    + by apply elem_of_nil in Hf.
  - unfold PartAclHandler_HEAD. rewrite Hsrc. rewrite bind_discard.
    by apply discarding_container_level.
Qed.

(** A multipart check on a named container, by the table entry for the
    request verb and the backend verb. *)
Lemma multiupload_check_run self sw a_o p st :
  PyStr.truthy_opt (container self) = true →
  PyStr.truthy sw = true →
  PyStr.truthy_opt (or_attr a_o (obj self)) = false →
  ACL_MAP !! (method self, sw, "container") = Some (AclCheck None p) →
  PyStr.truthy p = true →
  discarding (_handle_acl self (Some sw) (container self) a_o None None st) =
    discarding (probe_and_check self "container" p sw (container self)
                  (Some "") (headers self) st).
Proof.
  intros Hc Hsw Ho Hrule Hp.
  assert (Heff : effective_sw_method (Some sw) (req st) = sw)
    by (unfold effective_sw_method; simpl; by rewrite Hsw).
  rewrite (_handle_acl_run self (Some sw) (container self) a_o None None st
             "container" p); [| by rewrite or_attr_same | | done].
  - rewrite Heff, or_attr_same. reflexivity.
  - unfold resolve, resource_of. rewrite Ho, Heff. simpl. by rewrite Hrule.
Qed.

(** X18: the check table of the [MultiUploadAclHandler] docstring holds of
    the code.  On a named container each row's handler method probes the
    container and evaluates the row's permission: Part PUT, WRITE;
    Uploads GET, READ; Uploads POST (through the method PUT, when no
    object is named), WRITE; Upload GET, READ; Upload DELETE, WRITE;
    Upload POST, WRITE. *)
Theorem multiupload_docstring_table self st :
  PyStr.truthy_opt (container self) = true →
  let check p sw :=
    discarding (probe_and_check self "container" p sw (container self)
                  (Some "") (headers self) st) in
  (method self = "PUT" → check_copy_src self = false →
   PartAclHandler_HEAD self st = check "WRITE" "HEAD") ∧
  (method self = "GET" →
   UploadsAclHandler_GET self st = check "READ" "GET") ∧
  (method self = "POST" → PyStr.truthy_opt (obj self) = false →
   UploadsAclHandler_PUT self st = check "WRITE" "PUT") ∧
  (method self = "GET" →
   UploadAclHandler_HEAD self st = check "READ" "GET") ∧
  (method self = "DELETE" →
   UploadAclHandler_HEAD self st = check "WRITE" "HEAD") ∧
  (method self = "POST" →
   UploadAclHandler_HEAD self st = check "WRITE" "HEAD").
Proof.
  intros Hc. simpl. repeat split.
  - intros Hm Hsrc. unfold PartAclHandler_HEAD. rewrite Hsrc, bind_discard.
    apply multiupload_check_run; try done. by rewrite Hm.
  - intros Hm. unfold UploadsAclHandler_GET. rewrite bind_discard.
    apply multiupload_check_run; try done. by rewrite Hm.
  - intros Hm Ho. unfold UploadsAclHandler_PUT. rewrite Ho. simpl.
    rewrite bind_discard.
    apply multiupload_check_run; try done. by rewrite Hm.
  - intros Hm. unfold UploadAclHandler_HEAD. rewrite Hm. simpl.
    rewrite bind_discard.
    apply multiupload_check_run; try done. by rewrite Hm.
  - intros Hm. unfold UploadAclHandler_HEAD. rewrite Hm. simpl.
    rewrite bind_discard.
    apply multiupload_check_run; try done. by rewrite Hm.
  - intros Hm. unfold UploadAclHandler_HEAD. rewrite Hm. simpl.
    rewrite bind_discard.
    apply multiupload_check_run; try done. by rewrite Hm.
Qed.

(** X19: the copy-source check of [PartAclHandler].  When the handler was
    built on a container name without the upload-session suffix, HEAD for
    an incoming PUT evaluates READ on the ACL of the named source object,
    or WRITE on the bucket ACL when no object is named, and hands the
    probe's answer back. *)
Theorem part_HEAD_copy_source self st :
  check_copy_src self = true →
  method self = "PUT" →
  PyStr.truthy_opt (container self) = true →
  PartAclHandler_HEAD self st =
    probe_and_check self (resource_of (obj self))
      (if PyStr.truthy_opt (obj self) then "READ" else "WRITE") "HEAD"
      (container self) (obj self) (headers self) st.
Proof.
  intros Hsrc Hm Hc. unfold PartAclHandler_HEAD. rewrite Hsrc.
  rewrite (_handle_acl_run self (Some "HEAD") (container self) (obj self)
             None None st (resource_of (obj self))
             (if PyStr.truthy_opt (obj self) then "READ" else "WRITE"));
    rewrite ?or_attr_same; try done.
  - unfold resolve, resource_of. rewrite Hm. simpl.
    by destruct (PyStr.truthy_opt (obj self)).
  - by destruct (PyStr.truthy_opt (obj self)).
Qed.

End multiupload_outcomes.

Section bulk_delete_and_construction.
Context `{Collaborators}.
Implicit Types (self : handler) (st : State).

(** X20: bulk delete.  A [MultiObjectDeleteAclHandler] asked to handle
    DELETE does nothing (no per-object check); asked to handle HEAD for an
    incoming POST on a named container with no object name, it probes the
    container once, evaluates WRITE on the bucket ACL and hands the probe's
    answer back. *)
Theorem bulk_delete_checks self st :
  class_of self = MultiObjectDeleteAclHandler →
  handle_acl self (Some "DELETE") st = (st, Ok None) ∧
  (method self = "POST" →
   PyStr.truthy_opt (container self) = true →
   PyStr.truthy_opt (obj self) = false →
   handle_acl self (Some "HEAD") st =
     probe_and_check self "container" "WRITE" "HEAD" (container self)
       (obj self) (headers self) st).
Proof.
  intros Hk. unfold handle_acl, BaseAclHandler_handle_acl. rewrite Hk.
  split; [reflexivity |].
  intros Hm Hc Ho. simpl.
  apply (_handle_acl_run self (Some "HEAD") None None None None st
           "container" "WRITE"); [done | | done].
  unfold resolve, resource_of. simpl. by rewrite Hm, Ho.
Qed.

(** X21: construction fails only for want of a container name.  [new]
    raises exactly when the class is of the multipart-upload family and
    neither the container argument nor the request names a container; the
    exception is [AttributeError] for [PartAclHandler] ([endswith] on
    [None]) and [TypeError] for the others (subscript of [None]). *)
Theorem new_fails_iff (k : klass) (r : Request)
    (a_container a_obj : option string) (a_headers : option Headers)
    (e : exn) :
  new k r a_container a_obj a_headers = Raise e ↔
  in_multiupload_family k = true ∧
  or_attr a_container (container_name r) = None ∧
  e = if decide (k = PartAclHandler) then AttributeError else TypeError.
Proof.
  destruct k; unfold new, MultiUploadAclHandler_init, PartAclHandler_init;
    simpl; destruct (or_attr a_container (container_name r)) as [c|];
    try destruct (PyStr.endswith c MULTIUPLOAD_SUFFIX);
    (split; [intros [= <-] || intros [=]; done | intros (Hf & Hc & ->)]);
    done.
Qed.

Lemma slice_to_neg_short (s : string) (n : nat) :
  String.length s ≤ n → PyStr.slice_to_neg s n = "".
Proof.
  intros Hlen. unfold PyStr.slice_to_neg. destruct n as [|n]; [done |].
  replace (String.length s - S n) with 0 by lia. by destruct s.
Qed.

Lemma family_methods (k : klass) (name : string)
    (f : handler → M (option Resp)) :
  k ∈ [MultiUploadAclHandler; UploadsAclHandler; UploadAclHandler] →
  getattr k name = Some f →
  f ∈ [MultiUploadAclHandler_HEAD; UploadsAclHandler_GET;
       UploadsAclHandler_PUT; UploadAclHandler_HEAD].
Proof.
  intros Hk. repeat (apply elem_of_cons in Hk as [->|Hk]);
    [| | | by apply elem_of_nil in Hk];
    unfold getattr; simpl;
    repeat (destruct (decide (name = _)) as [->|?]; simpl);
    intros [= <-]; repeat constructor.
Qed.

Lemma family_method_no_container (f : handler → M (option Resp)) self st :
  f ∈ [MultiUploadAclHandler_HEAD; UploadsAclHandler_GET;
       UploadsAclHandler_PUT; UploadAclHandler_HEAD] →
  PyStr.truthy_opt (container self) = false →
  f self st = (st, Ok None).
Proof.
  intros Hf Hc.
  assert (Hskip : ∀ sw a_o,
    discarding (_handle_acl self sw (container self) a_o None None st)
      = (st, Ok None)).
  { intros. rewrite _handle_acl_no_container; [done |].
    by rewrite or_attr_same. }
  repeat (apply elem_of_cons in Hf as [->|Hf]);
    [| | | | by apply elem_of_nil in Hf].
  - unfold MultiUploadAclHandler_HEAD. rewrite bind_discard. apply Hskip.
  - unfold UploadsAclHandler_GET. rewrite bind_discard. apply Hskip.
  - unfold UploadsAclHandler_PUT.
    destruct (negb (PyStr.truthy_opt (obj self))); [|done].
    rewrite bind_discard. apply Hskip.
  - unfold UploadAclHandler_HEAD. rewrite bind_discard. apply Hskip.
Qed.

(** X22: a multipart-upload handler built on a container name no longer
    than the upload-session suffix authorizes nothing.  For
    [MultiUploadAclHandler], [UploadsAclHandler] and [UploadAclHandler]
    the slice leaves the empty string as container, and from then on
    [handle_acl] returns [None] for every verb (the one passed, or the
    request's own when none is passed) without any backend call or
    permission evaluation. *)
Theorem multiupload_short_container_skips_checks (k : klass) (r : Request)
    (a_container a_obj : option string) (a_headers : option Headers)
    (c : string) :
  k ∈ [MultiUploadAclHandler; UploadsAclHandler; UploadAclHandler] →
  or_attr a_container (container_name r) = Some c →
  String.length c ≤ String.length MULTIUPLOAD_SUFFIX →
  ∃ self,
    new k r a_container a_obj a_headers = Ok self ∧
    container self = Some "" ∧
    ∀ a_method st,
      verb_name (py_or a_method (method self)) = true →
      handle_acl self a_method st = (st, Ok None).
Proof.
  intros Hk Hc Hlen.
  assert (Hnew : new k r a_container a_obj a_headers =
            Ok (with_container (Some "")
                  (BaseAclHandler_init k r a_container a_obj a_headers))).
  { assert (new k r a_container a_obj a_headers =
              MultiUploadAclHandler_init k r a_container a_obj a_headers)
      as -> by (repeat (apply elem_of_cons in Hk as [->|Hk]); try done;
                by apply elem_of_nil in Hk).
    unfold MultiUploadAclHandler_init. simpl. rewrite Hc.
    by rewrite (slice_to_neg_short _ _ Hlen). }
  eexists. split; [exact Hnew |]. split; [reflexivity |].
  intros a_method st _. unfold handle_acl, MultiUploadAclHandler_handle_acl.
  simpl.
  assert (in_multiupload_family k = true) as ->
    by (repeat (apply elem_of_cons in Hk as [->|Hk]); try done;
        by apply elem_of_nil in Hk).
  destruct (getattr k _) as [f|] eqn:Hf; [|done].
  apply family_method_no_container; [|done].
  by eapply family_methods.
Qed.

End bulk_delete_and_construction.

(** * The further properties on concrete requests *)

Lemma object_PUT_outcome_witness :
  let r := Fixture.request "PUT" "alice" (Some "bucket") (Some "key")
             [] None in
  let self := BaseAclHandler_init ObjectAclHandler r None None None in
  let mine := Fixture.acl_of (mkOwner "alice" "alice") in
  (@ObjectAclHandler_PUT Fixture.collaborators self (Fixture.start r)).2
    = Ok None ∧
  None = @None Resp ∧
  ∃ (st1 : @State Fixture.collaborators) b_resp acl,
    _handle_acl self (Some "HEAD") None (Some "") None None (Fixture.start r)
      = (st1, Ok (Some b_resp)) ∧
    @from_headers Fixture.collaborators [] (owner (resp_bucket_acl b_resp))
      (Some (mkOwner "alice" "alice")) None = Ok acl ∧
    Some mine = acl ∧
    None = bucket_acl r ∧
    mkState (set_object_acl (Some mine) r) (world (Fixture.start r))
      [BackendCall (mkCall "HEAD" (Some "bucket") (Some "") None);
       SetObjectAcl (Some mine)]
    = mkState (set_object_acl acl r) (world st1)
        (trace st1 ++ [SetObjectAcl acl]).
Proof.
  split; [reflexivity |].
  exact (@object_PUT_outcome Fixture.collaborators
           (BaseAclHandler_init ObjectAclHandler
              (Fixture.request "PUT" "alice" (Some "bucket") (Some "key")
                 [] None) None None None)
           (Fixture.start
              (Fixture.request "PUT" "alice" (Some "bucket") (Some "key")
                 [] None))
           _ (Ok None) eq_refl).
Defined.

Lemma object_PUT_checks_container_WRITE_witness :
  let r := Fixture.request "PUT" "alice" (Some "bucket") (Some "key")
             [] None in
  let self := BaseAclHandler_init ObjectAclHandler r None None None in
  let mine := Fixture.acl_of (mkOwner "alice" "alice") in
  let run := @ObjectAclHandler_PUT Fixture.collaborators self
               (Fixture.start r) in
  run =
    (mkState (set_object_acl (Some mine) r) (world (Fixture.start r))
       [BackendCall (mkCall "HEAD" (Some "bucket") (Some "") None);
        SetObjectAcl (Some mine)],
     Ok None) ∧
  ∃ b_resp,
    Ok Fixture.answer = Ok b_resp ∧
    @check_permission Fixture.collaborators (resp_bucket_acl b_resp)
      "alice" "WRITE" = Ok tt ∧
    @from_headers Fixture.collaborators [] (owner (resp_bucket_acl b_resp))
      (Some (mkOwner "alice" "alice")) None = Ok (object_acl (req run.1)).
Proof.
  exact (@object_PUT_checks_container_WRITE Fixture.collaborators
           (BaseAclHandler_init ObjectAclHandler
              (Fixture.request "PUT" "alice" (Some "bucket") (Some "key")
                 [] None) None None None)
           (Fixture.start
              (Fixture.request "PUT" "alice" (Some "bucket") (Some "key")
                 [] None))
           eq_refl eq_refl).
Defined.

Lemma object_PUT_without_container_witness :
  let r := Fixture.request "PUT" "alice" None None [] None in
  let self := BaseAclHandler_init ObjectAclHandler r None None None in
  @ObjectAclHandler_PUT Fixture.collaborators self (Fixture.start r) =
    (Fixture.start r, Raise AttributeError).
Proof.
  apply (@object_PUT_without_container Fixture.collaborators). reflexivity.
Defined.

Lemma S3Acl_GET_checks_READ_ACP_witness :
  let r := Fixture.request "GET" "bob" (Some "bucket") (Some "key") [] None in
  let self := BaseAclHandler_init S3AclHandler r None None None in
  @S3AclHandler_GET Fixture.collaborators self (Fixture.start r) =
    discarding (probe_and_check self "object" "READ_ACP" "HEAD"
                  (Some "bucket") (Some "key") [] (Fixture.start r)).
Proof.
  apply (@S3Acl_GET_checks_READ_ACP Fixture.collaborators
           (BaseAclHandler_init S3AclHandler
              (Fixture.request "GET" "bob" (Some "bucket") (Some "key")
                 [] None) None None None)).
  reflexivity.
Defined.

Lemma S3Acl_write_failure_keeps_request_witness :
  let r := Fixture.request "PUT" "alice" (Some "bucket") (Some "key") []
             (Some "<not xml") in
  let self := BaseAclHandler_init S3AclHandler r None None None in
  (@S3AclHandler_PUT Fixture.collaborators self (Fixture.start r)).2
    = Raise MalformedACLError ∧
  req (@S3AclHandler_PUT Fixture.collaborators self (Fixture.start r)).1 = r.
Proof.
  split; [reflexivity |].
  exact (proj1 (@S3Acl_write_failure_keeps_request Fixture.collaborators
                  false
                  (BaseAclHandler_init S3AclHandler
                     (Fixture.request "PUT" "alice" (Some "bucket")
                        (Some "key") [] (Some "<not xml")) None None None)
                  (Fixture.start
                     (Fixture.request "PUT" "alice" (Some "bucket")
                        (Some "key") [] (Some "<not xml")))
                  _ MalformedACLError eq_refl)).
Defined.

Lemma S3Acl_write_fallback_is_fatal_witness :
  let r := Fixture.request "PUT" "alice" (Some "bucket") None []
             (Some "acl:alice") in
  let self := BaseAclHandler_init S3AclHandler r None None None in
  @S3AclHandler_PUT Fixture.collaborators self (Fixture.start r) =
    (Fixture.start r, Raise (Exception "No permission to be checked exists")).
Proof.
  apply (@S3Acl_write_fallback_is_fatal Fixture.collaborators false
           (BaseAclHandler_init S3AclHandler
              (Fixture.request "PUT" "alice" (Some "bucket") None []
                 (Some "acl:alice")) None None None));
    [reflexivity | by left | reflexivity].
Defined.

Lemma multiupload_checks_stay_on_container_witness :
  let r := Fixture.request "DELETE" "alice" (Some "bucket+segments")
             (Some "key/upload-id") [] None in
  let self := with_container (Some "bucket")
                (BaseAclHandler_init UploadAclHandler r None None None) in
  let run := @UploadAclHandler_HEAD Fixture.collaborators self
               (Fixture.start r) in
  req run.1 = r ∧
  (run.1 = Fixture.start r ∨
   trace run.1 = [] ++
     [BackendCall (mkCall "HEAD" (Some "bucket") (Some "") None)]) ∧
  (∀ v, run.2 = Ok v → v = None).
Proof.
  apply (@multiupload_checks_stay_on_container Fixture.collaborators
           UploadAclHandler_HEAD).
  left. repeat constructor.
Defined.

Lemma multiupload_docstring_table_witness :
  let r := Fixture.request "DELETE" "alice" (Some "bucket+segments")
             (Some "key/upload-id") [] None in
  let self := with_container (Some "bucket")
                (BaseAclHandler_init UploadAclHandler r None None None) in
  @UploadAclHandler_HEAD Fixture.collaborators self (Fixture.start r) =
    discarding (probe_and_check self "container" "WRITE" "HEAD"
                  (Some "bucket") (Some "") [] (Fixture.start r)).
Proof.
  apply (proj1 (proj2 (proj2 (proj2 (proj2
           (@multiupload_docstring_table Fixture.collaborators
              (with_container (Some "bucket")
                 (BaseAclHandler_init UploadAclHandler
                    (Fixture.request "DELETE" "alice"
                       (Some "bucket+segments") (Some "key/upload-id")
                       [] None) None None None))
              (Fixture.start
                 (Fixture.request "DELETE" "alice" (Some "bucket+segments")
                    (Some "key/upload-id") [] None))
              eq_refl)))))).
  reflexivity.
Defined.

Lemma part_HEAD_copy_source_witness :
  let r := Fixture.request "PUT" "alice" (Some "source-bucket")
             (Some "source-key") [] None in
  let self := with_check_copy_src true
                (BaseAclHandler_init PartAclHandler r None None None) in
  @PartAclHandler_HEAD Fixture.collaborators self (Fixture.start r) =
    probe_and_check self "object" "READ" "HEAD" (Some "source-bucket")
      (Some "source-key") [] (Fixture.start r).
Proof.
  apply (@part_HEAD_copy_source Fixture.collaborators
           (with_check_copy_src true
              (BaseAclHandler_init PartAclHandler
                 (Fixture.request "PUT" "alice" (Some "source-bucket")
                    (Some "source-key") [] None) None None None)));
    reflexivity.
Defined.

Lemma bulk_delete_checks_witness :
  let r := Fixture.request "POST" "alice" (Some "bucket") None [] None in
  let self := BaseAclHandler_init MultiObjectDeleteAclHandler r
                None None None in
  @handle_acl Fixture.collaborators self (Some "DELETE") (Fixture.start r)
    = (Fixture.start r, Ok None) ∧
  @handle_acl Fixture.collaborators self (Some "HEAD") (Fixture.start r)
    = probe_and_check self "container" "WRITE" "HEAD" (Some "bucket") None
        [] (Fixture.start r).
Proof.
  split.
  - apply (@bulk_delete_checks Fixture.collaborators). reflexivity.
  - apply (proj2 (@bulk_delete_checks Fixture.collaborators
                    (BaseAclHandler_init MultiObjectDeleteAclHandler
                       (Fixture.request "POST" "alice" (Some "bucket") None
                          [] None) None None None)
                    _ eq_refl));
      reflexivity.
Defined.

Lemma multiupload_short_container_skips_checks_witness :
  let r := Fixture.request "DELETE" "mallory" (Some "photos")
             (Some "key") [] None in
  ∃ self,
    @new Fixture.collaborators UploadAclHandler r None None None = Ok self ∧
    container self = Some "" ∧
    ∀ a_method (st : @State Fixture.collaborators),
      verb_name (py_or a_method (method self)) = true →
      handle_acl self a_method st = (st, Ok None).
Proof.
  apply (@multiupload_short_container_skips_checks Fixture.collaborators
           UploadAclHandler
           (Fixture.request "DELETE" "mallory" (Some "photos") (Some "key")
              [] None)
           None None None "photos").
  - repeat constructor.
  - reflexivity.
  - simpl. lia.
Defined.

Section acl_write_order.
Context `{Collaborators}.
Implicit Types (self : handler) (st : State).

(** X23: writing an object's ACL contacts the backend before it looks at
    the caller's permission or at the ACL supplied.  On an object request,
    whatever [S3AclHandler.PUT] ends in, the first thing it has done is
    the HEAD probe of the bucket (no container argument, empty object
    name); what follows is at most the probe of the WRITE_ACP check and
    the assignment of the new object ACL, in that order. *)
Theorem S3Acl_PUT_probes_bucket_first self st :
  is_object_request (req st) = true →
  let run := S3AclHandler_PUT self st in
  let bucket_probe := BackendCall (mkCall "HEAD" None (Some "") None) in
  ∃ checked attached,
    trace run.1 = trace st ++ bucket_probe :: checked ++ attached ∧
    (checked = [] ∨
     ∃ cl, checked = [BackendCall cl] ∧ c_method cl = "HEAD") ∧
    (attached = [] ∨
     ∃ acl, attached = [SetObjectAcl (Some acl)] ∧
            run.2 = Ok None ∧ object_acl (req run.1) = Some acl).
Proof.
  intros Hobj. simpl.
  destruct (S3AclHandler_PUT self st) as [st' out] eqn:Hrun. simpl.
  unfold S3AclHandler_PUT, bind at 1, get_req in Hrun. rewrite Hobj in Hrun.
  unfold bind at 1 in Hrun. rewrite backend_call_run in Hrun.
  destruct (get_acl_response _ _ _) as [w [b_resp|e]]; simpl in Hrun.
  2:{ injection Hrun as <- <-. exists [], []. split; [done |].
      split; by left. }
  unfold bind at 1 in Hrun.
  match type of Hrun with
  | context [_handle_acl self ?sw None None ?p None ?s] =>
      pose proof (_handle_acl_state self sw None None p None s)
        as [_ Hstate];
      destruct (_handle_acl self sw None None p None s)
        as [st1 [o_resp|e]] eqn:Hcheck
  end; simpl in Hstate.
  - assert (Hchecked : ∃ checked,
        trace st1 = trace st ++
          BackendCall (mkCall "HEAD" None (Some "") None) :: checked ∧
        (checked = [] ∨
         ∃ cl, checked = [BackendCall cl] ∧ c_method cl = "HEAD")).
    { destruct Hstate as [-> | (cl & Htr & Hm & _)].
      - exists []. split; [done | by left].
      - exists [BackendCall cl]. simpl in Htr. rewrite Htr.
        rewrite <- (assoc_L (++)). split; [done |]. right. by exists cl. }
    destruct Hchecked as (checked & Htr & Hshape).
    assert (Hfail : ∀ e, (st', out) = (st1, Raise e) →
      ∃ checked attached,
        trace st' = trace st ++
          BackendCall (mkCall "HEAD" None (Some "") None)
            :: checked ++ attached ∧
        (checked = [] ∨
         ∃ cl, checked = [BackendCall cl] ∧ c_method cl = "HEAD") ∧
        (attached = [] ∨
         ∃ acl, attached = [SetObjectAcl (Some acl)] ∧
                out = Ok None ∧ object_acl (req st') = Some acl)).
    { intros e [= -> ->]. exists checked, []. rewrite app_nil_r.
      split; [done |]. split; [done | by left]. }
    unfold bind, get_req, lift in Hrun. simpl in Hrun.
    destruct (xml (req st1)) as [body|e]; simpl in Hrun;
      [|by eapply Hfail].
    destruct o_resp as [o|]; simpl in Hrun; [|by eapply Hfail].
    destruct (get_acl _ _ _ _) as [req_acl|e]; simpl in Hrun;
      [|by eapply Hfail].
    destruct (check_owner _ _) as [[]|e]; simpl in Hrun;
      [|by eapply Hfail].
    injection Hrun as <- <-.
    exists checked, [SetObjectAcl (Some req_acl)]. simpl. rewrite Htr.
    rewrite <- (assoc_L (++)). split; [done |]. split; [done |].
    right. by exists req_acl.
  - injection Hrun as <- <-.
    destruct Hstate as [-> | (cl & Htr & Hm & _)].
    + exists [], []. split; [done |]. split; by left.
    + exists [BackendCall cl], []. simpl in Htr. rewrite Htr.
      rewrite <- (assoc_L (++)). split; [done |].
      split; [right; by exists cl | by left].
Qed.

End acl_write_order.

Lemma S3Acl_PUT_probes_bucket_first_witness :
  let r := Fixture.request "PUT" "bob" (Some "bucket") (Some "key")
             [("x-amz-acl", "private")] (Some "acl:bob") in
  let self := BaseAclHandler_init S3AclHandler r None None None in
  let run := @S3AclHandler_PUT Fixture.collaborators self
               (Fixture.start r) in
  run.2 = Raise AccessDenied ∧
  ∃ checked attached,
    trace run.1 =
      [] ++ BackendCall (mkCall "HEAD" None (Some "") None)
              :: checked ++ attached ∧
    (checked = [] ∨
     ∃ cl, checked = [BackendCall cl] ∧ c_method cl = "HEAD") ∧
    (attached = [] ∨
     ∃ acl, attached = [SetObjectAcl (Some acl)] ∧
            run.2 = Ok None ∧ object_acl (req run.1) = Some acl).
Proof.
  split; [reflexivity |].
  apply (@S3Acl_PUT_probes_bucket_first Fixture.collaborators
           (BaseAclHandler_init S3AclHandler
              (Fixture.request "PUT" "bob" (Some "bucket") (Some "key")
                 [("x-amz-acl", "private")] (Some "acl:bob"))
              None None None)).
  reflexivity.
Defined.
